(** * Food-waste dashboard: listings, claims and the claim lifecycle

    A shallow embedding of the data-modifying paths of [app.py] over the
    schema of [database_setup.py], and the properties of the claim
    lifecycle proved about them.

    Tables are finite maps from the primary key to the remaining columns.
    Dates are day ordinals ([date.toordinal()]), so that [<] on dates is [<]
    on [Z]; timestamps are opaque integers. A statement parameter is bound
    as the driver binds the Python object it is given. *)

From stdpp Require Import gmap strings list fin_maps.

Local Open Scope Z_scope.

(** ** Schema ([database_setup.py]) *)

(** [Claims.Status]: a string column under
    [CHECK (Status IN ('Pending', 'Completed', 'Cancelled'))]. *)
Inductive Status := Pending | Completed | Cancelled.

#[global] Instance Status_eq_dec : EqDecision Status.
Proof. solve_decision. Defined.

Module Provider.
Record t := mk {
  Name : string;
  Type_ : string;
  Address : option string;
  City : string;
  Contact : option string
}.
End Provider.

Module Receiver.
Record t := mk {
  Name : string;
  Type_ : string;
  City : string;
  Contact : option string;
  Pincode : option string
}.
End Receiver.

Module Listing.
Record t := mk {
  Food_Name : string;
  Quantity : Z;
  Expiry_Date : Z;
  Provider_ID : Z;
  Provider_Type : option string;
  Location : option string;
  Food_Type : option string;
  Meal_Type : option string
}.
End Listing.

Module Claim.
Record t := mk {
  Food_ID : Z;
  Receiver_ID : Z;
  Status : Status;
  Timestamp : Z
}.
End Claim.

(** The four tables of [food_wastage.db]. *)
Record DB := mkDB {
  Providers : gmap Z Provider.t;
  Receivers : gmap Z Receiver.t;
  Food_Listings : gmap Z Listing.t;
  Claims : gmap Z Claim.t
}.

Definition empty_db : DB := mkDB ∅ ∅ ∅ ∅.

(** ** The store: the SQL statements the application issues *)

(** Exceptions that abort a transaction body. *)
Inductive Exn :=
  | KeyError        (* [provider_map[name]] on a missing key *)
  | IndexError      (* [df.iloc[0]] on an empty frame *)
  | IntegrityError. (* a CHECK or FOREIGN KEY constraint refused by SQLite *)

(** The rowid SQLite gives a row inserted without its INTEGER PRIMARY KEY:
    one more than the largest in use, 1 in an empty table. *)
Definition next_rowid {A} (m : gmap Z A) : Z :=
  match (map_to_list m).*1 with
  | [] => 1
  | k :: ks => foldr Z.max k ks + 1
  end.

(** A statement parameter, by the Python object the handler passes. An
    [int] (a [number_input] value, [lastrowid], an element of [tolist()]) is
    bound as INTEGER. A [numpy.int64], which is what [df.iloc[0][column]]
    gives for an integer column, is no [int] and offers the buffer protocol:
    [sqlite3] binds it as the BLOB of its bytes, and a BLOB equals no
    INTEGER key. *)
Inductive Param :=
  | PyInt (z : Z)
  | NumpyInt64 (z : Z).

(** The INTEGER a bound parameter can be equal to, if any. *)
Definition bound_integer (p : Param) : option Z :=
  match p with
  | PyInt z => Some z
  | NumpyInt64 _ => None
  end.

Section Store.
(** [PRAGMA foreign_keys] of the connection: when off, SQLite parses the
    FOREIGN KEY clauses of the schema and does not act on them. *)
Variable foreign_keys : bool.

(** [UPDATE Claims SET Status = :s WHERE Claim_ID = :cid] *)
Definition update_claim_status (s : Status) (cid : Z) (db : DB) : DB :=
  mkDB (Providers db) (Receivers db) (Food_Listings db)
       (alter (λ c, Claim.mk (Claim.Food_ID c) (Claim.Receiver_ID c) s
                             (Claim.Timestamp c)) cid (Claims db)).

(** [DELETE FROM Food_Listings WHERE Food_ID = :fid]. The ON DELETE
    CASCADE of [Claims.Food_ID] acts on the claims of a row that is
    deleted, and only under [foreign_keys]. *)
Definition delete_food_listing (fid : Z) (db : DB) : DB :=
  match Food_Listings db !! fid with
  | None => db
  | Some _ =>
      mkDB (Providers db) (Receivers db)
           (delete fid (Food_Listings db))
           (if foreign_keys
            then filter (λ kc, Claim.Food_ID kc.2 ≠ fid) (Claims db)
            else Claims db)
  end.

(** The same statement with [:fid] bound from a Python object. *)
Definition delete_food_listing_where (fid : Param) (db : DB) : DB :=
  match bound_integer fid with
  | Some k => delete_food_listing k db
  | None => db
  end.

(** [DELETE FROM Providers WHERE Provider_ID = :pid], with the cascade
    Providers -> Food_Listings -> Claims of the schema. *)
Definition delete_provider (pid : Z) (db : DB) : DB :=
  match Providers db !! pid with
  | None => db
  | Some _ =>
      if foreign_keys then
        mkDB (delete pid (Providers db)) (Receivers db)
             (filter (λ kl, Listing.Provider_ID kl.2 ≠ pid) (Food_Listings db))
             (filter (λ kc, Listing.Provider_ID <$>
                              (Food_Listings db !! Claim.Food_ID kc.2) ≠ Some pid)
                     (Claims db))
      else
        mkDB (delete pid (Providers db)) (Receivers db)
             (Food_Listings db) (Claims db)
  end.

(** [INSERT INTO Food_Listings (...) VALUES (...)], returning
    [result.lastrowid]. *)
Definition insert_food_listing (l : Listing.t) (db : DB) : Exn + (Z * DB) :=
  if decide (0 < Listing.Quantity l) then
    if decide (foreign_keys = true ∧ Providers db !! Listing.Provider_ID l = None)
    then inl IntegrityError
    else
      let fid := next_rowid (Food_Listings db) in
      inr (fid, mkDB (Providers db) (Receivers db)
                     (<[fid := l]> (Food_Listings db)) (Claims db))
  else inl IntegrityError.

(** [INSERT INTO Claims (Food_ID, Receiver_ID, Status) VALUES (:fid, :rid,
    'Pending')]; Timestamp takes its server default, the current time. *)
Definition insert_claim (now fid rid : Z) (db : DB) : Exn + (unit * DB) :=
  if decide (foreign_keys = true ∧
             (Food_Listings db !! fid = None ∨ Receivers db !! rid = None))
  then inl IntegrityError
  else
    let cid := next_rowid (Claims db) in
    inr (tt, mkDB (Providers db) (Receivers db) (Food_Listings db)
                  (<[cid := Claim.mk fid rid Pending now]> (Claims db))).

(** [UPDATE Food_Listings SET Quantity = :qty, Expiry_Date = :exp WHERE
    Food_ID = :id] *)
Definition update_food_listing (fid qty exp : Z) (db : DB) : Exn + (unit * DB) :=
  match Food_Listings db !! fid with
  | None => inr (tt, db)
  | Some l =>
      if decide (0 < qty) then
        inr (tt, mkDB (Providers db) (Receivers db)
               (<[fid := Listing.mk (Listing.Food_Name l) qty exp
                            (Listing.Provider_ID l) (Listing.Provider_Type l)
                            (Listing.Location l) (Listing.Food_Type l)
                            (Listing.Meal_Type l)]> (Food_Listings db))
               (Claims db))
      else inl IntegrityError
  end.
End Store.

(** ** Transactions: [with engine.begin() as conn: ...] *)

(** A transaction body reads and writes the database and may raise. *)
Definition Tx (A : Type) : Type := DB → Exn + (A * DB).

Definition tx_ret {A} (a : A) : Tx A := λ db, inr (a, db).

Definition tx_bind {A B} (m : Tx A) (k : A → Tx B) : Tx B :=
  λ db, match m db with
        | inl e => inl e
        | inr (a, db') => k a db'
        end.

Definition tx_raise {A} (e : Exn) : Tx A := λ _, inl e.

(** A [pd.read_sql] inside the transaction. *)
Definition tx_query {A} (q : DB → A) : Tx A := λ db, inr (q db, db).

(** A [conn.execute] of a statement that cannot fail. *)
Definition tx_execute (stmt : DB → DB) : Tx unit := λ db, inr (tt, stmt db).

(** Python's [d[k]] and [df.iloc[0]]: the value, or the exception. *)
Definition tx_from_option {A} (e : Exn) (o : option A) : Tx A :=
  match o with
  | Some a => tx_ret a
  | None => tx_raise e
  end.

Notation "'let*' x := m 'in' k" := (tx_bind m (λ x, k))
  (at level 10, x pattern, m at level 100, k at level 200, only parsing).

(** [engine.begin()] commits when the body returns and rolls back when it
    raises. *)
Definition engine_begin {A} (body : Tx A) (db : DB) : DB * (Exn + A) :=
  match body db with
  | inl e => (db, inl e)
  | inr (a, db') => (db', inr a)
  end.

(** [execute_mutation], [app.py] lines 40-46: the statement in a transaction
    of its own, then [st.cache_data.clear()] and [st.rerun()]. The rerun
    ends this run of the script, so what follows the call in a handler is
    not reached: [None] is that rerun, [Some e] the exception the statement
    raised. *)
Definition execute_mutation (stmt : Tx unit) (db : DB) : DB * option Exn :=
  match engine_begin stmt db with
  | (db', inr _) => (db', None)
  | (db', inl e) => (db', Some e)
  end.

(** ** The engine of the application *)

Record Engine := mkEngine { foreign_keys : bool }.

(** [create_engine('sqlite:///database/food_wastage.db')], in [app.py] as in
    [load_data.py] and [database_setup.py]: no connect hook, and no
    statement of the repository issues [PRAGMA foreign_keys = ON], so every
    connection runs with SQLite's default, foreign keys off. *)
Definition get_engine : Engine := mkEngine false.

(** ** What the pages report *)

Inductive Message :=
  | NoProviderSelected            (* st.error, app.py:210 *)
  | FoodNameEmpty                 (* st.error, app.py:212 *)
  | ExpiryInPast                  (* st.error, app.py:214 and 279 *)
  | AddedWithPendingClaim         (* st.success, app.py:246 *)
  | AddedNoReceivers              (* st.warning, app.py:248 *)
  | ErrorOccurred (e : Exn)       (* st.error, app.py:254, 304, 424, 461 *)
  | Uncaught (e : Exn)            (* raised outside any try, app.py:282 *)
  | UpdatedListing                (* st.success, app.py:284, not reached *)
  | NoListingFound                (* st.warning, app.py:286 and 306 *)
  | DeletedListing                (* st.success, app.py:302, not reached *)
  | ClaimCompleted                (* st.success, app.py:420 *)
  | NotAValidPendingClaim         (* st.error, app.py:426 and 463 *)
  | ClaimCancelledExpiredRemoved  (* st.warning, app.py:450 *)
  | ClaimCancelled                (* st.success, app.py:453 *)
  | ClaimCancelledListingGone.    (* st.success, app.py:455 *)

(** The source reports a failure as a message on the page. The three error
    kinds of the specification classify the messages: the checks of a form
    made before the database is touched are validation errors, an id that
    selects no row of the expected state is not found, and an exception
    out of a transaction is a storage error. *)
Inductive ErrorKind := ValidationError | NotFoundError | StorageError.

Definition error_kind (m : Message) : option ErrorKind :=
  match m with
  | NoProviderSelected | FoodNameEmpty | ExpiryInPast => Some ValidationError
  | NotAValidPendingClaim | NoListingFound => Some NotFoundError
  | ErrorOccurred _ | Uncaught _ => Some StorageError
  | _ => None
  end.

(** ** Manage Food Listings ([app.py], lines 176-306) *)

(** The submitted "add_listing_form". [provider_map] is the dictionary the
    form was rendered with, [dict(zip(Name, Provider_ID))] of a cached
    query; the select box yields [None] when it has no option. *)
Record ListingForm := mkForm {
  provider_map : gmap string Z;
  selected_provider_name : option string;
  food_name : string;
  quantity : Z;
  expiry_date : Z;
  food_type : string;
  meal_type : string
}.

(** [random.choice(l)] is [l[k]] for a draw [k] below [len(l)]; the draw is
    an input, reduced into range. *)
Definition random_choice (draw : nat) (l : list Z) : option Z :=
  l !! (draw mod length l)%nat.

(** [SELECT Receiver_ID FROM Receivers], as a list. *)
Definition receiver_ids (db : DB) : list Z := (map_to_list (Receivers db)).*1.

Section App.
Variable engine : Engine.

Let fk := foreign_keys engine.

(** The body of the transaction of the submit handler, lines 217-248. *)
Definition add_listing_tx (now : Z) (draw : nat) (f : ListingForm)
    (name : string) : Tx Message :=
  let* provider_id := tx_from_option KeyError (provider_map f !! name) in
  let* provider_details :=
    (λ db, tx_from_option IndexError (Providers db !! provider_id) db) in
  let* new_food_id :=
    insert_food_listing fk
      (Listing.mk (food_name f) (quantity f) (expiry_date f) provider_id
                  (Some (Provider.Type_ provider_details))
                  (Some (Provider.City provider_details))
                  (Some (food_type f)) (Some (meal_type f))) in
  let* ids := tx_query receiver_ids in
  match ids with
  | [] => tx_ret AddedNoReceivers
  | _ :: _ =>
      let* random_receiver_id :=
        tx_from_option IndexError (random_choice draw ids) in
      let* _ := insert_claim fk now new_food_id random_receiver_id in
      tx_ret AddedWithPendingClaim
  end.

(** Create: the submit handler of "add_listing_form", lines 208-254. *)
Definition add_listing (today now : Z) (draw : nat) (f : ListingForm)
    (db : DB) : DB * option Message :=
  match selected_provider_name f with
  | None => (db, Some NoProviderSelected)
  | Some name =>
      if decide (name = EmptyString) then (db, Some NoProviderSelected)
      else if decide (food_name f = EmptyString) then (db, Some FoodNameEmpty)
      else if decide (expiry_date f < today) then (db, Some ExpiryInPast)
      else
        match engine_begin (add_listing_tx now draw f name) db with
        | (db', inr m) => (db', Some m)
        | (db', inl e) => (db', Some (ErrorOccurred e))
        end
  end.

(** Update: "update_listing_form", lines 258-286. The statement runs in
    [execute_mutation], outside any [try]; when it succeeds the script is
    rerun and the [st.success] of line 284 is not reached. *)
Definition update_listing (today update_id new_quantity new_expiry_date : Z)
    (db : DB) : DB * option Message :=
  if decide (update_id = 0) then (db, None)
  else
    match Food_Listings db !! update_id with
    | None => (db, Some NoListingFound)
    | Some _ =>
        if decide (new_expiry_date < today) then (db, Some ExpiryInPast)
        else
          match execute_mutation
                  (update_food_listing update_id new_quantity new_expiry_date)
                  db with
          | (db', None) => (db', None)
          | (db', Some e) => (db', Some (Uncaught e))
          end
    end.

(** Delete: the "Confirm Deletion" button, lines 290-306. [delete_id] is the
    [int] of the id input; when the statement succeeds the script is rerun
    and the [st.success] of line 302 is not reached. *)
Definition delete_listing (delete_id : Z) (db : DB) : DB * option Message :=
  if decide (delete_id = 0) then (db, None)
  else
    match Food_Listings db !! delete_id with
    | None => (db, Some NoListingFound)
    | Some _ =>
        match execute_mutation
                (tx_execute (delete_food_listing_where fk (PyInt delete_id)))
                db with
        | (db', None) => (db', None)
        | (db', Some e) => (db', Some (ErrorOccurred e))
        end
    end.

(** ** Manage Claims ([app.py], lines 377-465) *)

(** [claims_query]: the claims of the chosen status, LEFT JOINed to their
    listing (a claim without listing stays) and JOINed to their receiver
    (a claim without receiver is dropped). Only the Claim_ID column is
    used by the handlers. *)
Definition claims_df (status_filter : Status) (db : DB) : gmap Z Claim.t :=
  filter (λ kc, Claim.Status kc.2 = status_filter ∧
                is_Some (Receivers db !! Claim.Receiver_ID kc.2))
         (Claims db).

(** The transaction of "Mark as Completed", lines 410-418. [food_id] is
    [food_id_df.iloc[0]['Food_ID']], a [numpy.int64], and is passed on as it
    is to the DELETE. *)
Definition mark_as_completed_tx (claim_id_to_update : Z) : Tx unit :=
  let* food_id :=
    (λ db, tx_from_option IndexError
             (Claim.Food_ID <$> Claims db !! claim_id_to_update) db) in
  let* _ := tx_execute (update_claim_status Completed claim_id_to_update) in
  tx_execute (delete_food_listing_where fk (NumpyInt64 food_id)).

(** Complete: the "Mark as Completed" button, lines 406-426, shown with
    the Pending filter over a non-empty frame. *)
Definition mark_as_completed (claim_id_to_update : Z) (db : DB)
    : DB * option Message :=
  if decide (claim_id_to_update = 0) then (db, None)
  else if decide (is_Some (claims_df Pending db !! claim_id_to_update)) then
    match engine_begin (mark_as_completed_tx claim_id_to_update) db with
    | (db', inr _) => (db', Some ClaimCompleted)
    | (db', inl e) => (db', Some (ErrorOccurred e))
    end
  else (db, Some NotAValidPendingClaim).

(** [SELECT Food_ID, Expiry_Date FROM Food_Listings WHERE Food_ID =
    (SELECT Food_ID FROM Claims WHERE Claim_ID = :cid)]: at most one row. *)
Definition food_info_df (cid : Z) (db : DB) : option (Z * Z) :=
  c ← Claims db !! cid;
  l ← Food_Listings db !! Claim.Food_ID c;
  Some (Claim.Food_ID c, Listing.Expiry_Date l).

(** The transaction of "Cancel Claim", lines 433-456. [food_id] is
    [food_info_df.iloc[0]['Food_ID']], a [numpy.int64] as well. *)
Definition cancel_claim_tx (today claim_id_to_update : Z) : Tx Message :=
  let* food_info := tx_query (food_info_df claim_id_to_update) in
  let* _ := tx_execute (update_claim_status Cancelled claim_id_to_update) in
  match food_info with
  | Some (food_id, expiry_date) =>
      if decide (expiry_date < today) then
        let* _ :=
          tx_execute (delete_food_listing_where fk (NumpyInt64 food_id)) in
        tx_ret ClaimCancelledExpiredRemoved
      else tx_ret ClaimCancelled
  | None => tx_ret ClaimCancelledListingGone
  end.

(** Cancel: the "Cancel Claim" button, lines 429-463. *)
Definition cancel_claim (today claim_id_to_update : Z) (db : DB)
    : DB * option Message :=
  if decide (claim_id_to_update = 0) then (db, None)
  else if decide (is_Some (claims_df Pending db !! claim_id_to_update)) then
    match engine_begin (cancel_claim_tx today claim_id_to_update) db with
    | (db', inr m) => (db', Some m)
    | (db', inl e) => (db', Some (ErrorOccurred e))
    end
  else (db, Some NotAValidPendingClaim).

(** ** The operations, as one step function *)

Inductive Op :=
  | Create (now : Z) (draw : nat) (f : ListingForm)
  | Update (food_id new_quantity new_expiry_date : Z)
  | Delete (food_id : Z)
  | Complete (claim_id : Z)
  | Cancel (claim_id : Z).

Definition run (today : Z) (op : Op) (db : DB) : DB * option Message :=
  match op with
  | Create now draw f => add_listing today now draw f db
  | Update fid qty exp => update_listing today fid qty exp db
  | Delete fid => delete_listing fid db
  | Complete cid => mark_as_completed cid db
  | Cancel cid => cancel_claim today cid db
  end.

(** The states the operations lead to from [init], on any days. *)
Inductive reachable (init : DB) : DB → Prop :=
  | reachable_init : reachable init init
  | reachable_run today op db :
      reachable init db → reachable init (run today op db).1.
End App.

(** ** The data model the pages rely on *)

(** A claim the Manage Claims page can address: its id is in the range of
    the id input ([min_value=1]) and its receiver row exists, so the JOIN of
    [claims_query] keeps it. *)
Definition claim_addressable (db : DB) (cid : Z) (c : Claim.t) : Prop :=
  0 < cid ∧ is_Some (Receivers db !! Claim.Receiver_ID c).

(** Every claim has a positive id and references one receiver (section 3 of
    the specification). Nothing is asked of [Claim.Food_ID]: a claim may
    reference a listing that is gone. *)
Definition data_model (db : DB) : Prop :=
  map_Forall (claim_addressable db) (Claims db).

#[global] Instance data_model_dec db : Decision (data_model db).
Proof. unfold data_model, claim_addressable. apply _. Defined.

(** [CHECK (Quantity > 0)] on every stored listing. *)
Definition quantity_positive (db : DB) : Prop :=
  map_Forall (λ _ l, 0 < Listing.Quantity l) (Food_Listings db).

#[global] Instance quantity_positive_dec db : Decision (quantity_positive db).
Proof. unfold quantity_positive. apply _. Defined.

(** The row of a claim after [UPDATE Claims SET Status = s]. *)
Definition set_status (s : Status) (c : Claim.t) : Claim.t :=
  Claim.mk (Claim.Food_ID c) (Claim.Receiver_ID c) s (Claim.Timestamp c).

(** Complete as the specification words it: the claim ends Completed, its
    listing is gone, and so is every other claim on that listing. *)
Definition complete_clears_listing_and_siblings (engine : Engine) (db : DB)
    (cid : Z) : Prop :=
  ∀ c, Claims db !! cid = Some c → Claim.Status c = Pending →
    let db' := (mark_as_completed engine cid db).1 in
    Claim.Status <$> Claims db' !! cid = Some Completed ∧
    Food_Listings db' !! Claim.Food_ID c = None ∧
    ∀ cid' c', cid' ≠ cid → Claims db !! cid' = Some c' →
               Claim.Food_ID c' = Claim.Food_ID c → Claims db' !! cid' = None.

(** Cancel as the specification words it for a listing that expired: the
    claim ends Cancelled and its listing is gone. *)
Definition cancel_purges_expired_listing (engine : Engine) (today : Z)
    (db : DB) (cid : Z) : Prop :=
  ∀ c l, Claims db !! cid = Some c → Claim.Status c = Pending →
    Food_Listings db !! Claim.Food_ID c = Some l →
    Listing.Expiry_Date l < today →
    let db' := (cancel_claim engine today cid db).1 in
    Claim.Status <$> Claims db' !! cid = Some Cancelled ∧
    Food_Listings db' !! Claim.Food_ID c = None.

(** Deleting a provider as the specification words it: none of its listings
    is left, nor any claim on one of them. *)
Definition provider_delete_cascades (engine : Engine) (db : DB) (pid : Z) : Prop :=
  let db' := delete_provider (foreign_keys engine) pid db in
  (∀ fid l, Food_Listings db !! fid = Some l → Listing.Provider_ID l = pid →
            Food_Listings db' !! fid = None) ∧
  (∀ cid c l, Claims db !! cid = Some c →
              Food_Listings db !! Claim.Food_ID c = Some l →
              Listing.Provider_ID l = pid → Claims db' !! cid = None).

(** ** A small database

    One provider, two receivers, a listing of ten loaves that expires on day
    105 under two Pending claims, a Completed claim whose listing is gone,
    and a Pending claim whose listing is gone. *)

Definition bakery : Provider.t :=
  Provider.mk "Bakery" "Restaurant" None "Austin" None.

Definition shelter : Receiver.t :=
  Receiver.mk "Shelter" "NGO" "Austin" None None.

Definition pantry : Receiver.t :=
  Receiver.mk "Pantry" "Charity" "Austin" None None.

Definition bread : Listing.t :=
  Listing.mk "Bread" 10 105 1 (Some "Restaurant") (Some "Austin")
             (Some "Vegan") (Some "Lunch").

Definition sample_db : DB :=
  mkDB {[1 := bakery]}
       {[1 := shelter; 2 := pantry]}
       {[10 := bread]}
       {[1 := Claim.mk 10 1 Pending 0;
         2 := Claim.mk 10 2 Pending 0;
         3 := Claim.mk 7 1 Completed 0;
         4 := Claim.mk 8 2 Pending 0]}.

Definition soup_form : ListingForm :=
  mkForm {["Bakery" := 1]} (Some "Bakery") "Soup" 4 120 "Vegetarian" "Dinner".

(** ** Text ([load_data.py], and [make_clickable] of [app.py])

    A Python [str] is the list of its code points; a cell that holds no
    [str] (None, NaN, a number) is [None]. *)

Abbreviation pystr := (list N).

Definition of_string (s : string) : pystr :=
  (λ a, Ascii.N_of_ascii a) <$> String.list_ascii_of_string s.

Section Text.
(** The class [\d] of [re] on [str] patterns, the decimal digits of Unicode;
    [\D] is its complement. *)
Variable is_digit : N → bool.

(** [re.findall(r'\d', s)], and [re.sub(r'\D', '', s)] all the same. *)
Definition findall_digits (s : pystr) : pystr :=
  filter (λ c, is_digit c = true) s.

(** [standardize_phone_number], [load_data.py] lines 44-61. *)
Definition standardize_phone_number (phone : option pystr) : option pystr :=
  match phone with
  | None => None
  | Some s =>
      match findall_digits s with
      | [d0; d1; d2; d3; d4; d5; d6; d7; d8; d9] =>
          Some (of_string "(" ++ [d0; d1; d2] ++ of_string ") " ++
                [d3; d4; d5] ++ of_string "-" ++ [d6; d7; d8; d9])
      | _ => None
      end
  end.

(** [extract_pincode], [load_data.py] lines 32-43: [re.search(r'\d{5}$')].
    The [$] matches before a newline that ends the string and at the end
    of the string; the search returns the leftmost match. *)
Definition five_digits_at_end (s : pystr) : option pystr :=
  let tail := drop (length s - 5)%nat s in
  if decide (length tail = 5%nat ∧ Forall (λ c, is_digit c = true) tail)
  then Some tail else None.

Definition extract_pincode (address : option pystr) : option pystr :=
  match address with
  | None => None
  | Some s =>
      match
        (if decide (last s = Some 10%N) then five_digits_at_end (removelast s)
         else None)
      with
      | Some m => Some m
      | None => five_digits_at_end s
      end
  end.

(** [make_clickable], [app.py] lines 345-349, on a Contact cell. *)
Definition make_clickable (phone : option pystr) : pystr :=
  match phone with
  | None | Some [] => of_string "N/A"
  | Some s =>
      of_string "[" ++ s ++ of_string "](tel:" ++ findall_digits s ++
      of_string ")"
  end.
End Text.

(** [format(n, 'd')] of a natural number: its decimal digits. *)
Fixpoint decimal_digits (fuel : nat) (n : N) (acc : pystr) : pystr :=
  match fuel with
  | O => acc
  | S fuel' =>
      let acc' := (48 + n mod 10)%N :: acc in
      if decide (n / 10 = 0)%N then acc'
      else decimal_digits fuel' (n / 10)%N acc'
  end.

Definition format_d (n : N) : pystr := decimal_digits (S (N.to_nat n)) n [].

(** [format(n, '0wd')]: zero padding on the left, up to [width]. *)
Definition format_0d (width : nat) (n : N) : pystr :=
  let s := format_d n in replicate (width - length s) 48%N ++ s.

(** [generate_random_phone], [load_data.py] lines 25-30; the three
    [random.randint] draws are inputs. *)
Definition generate_random_phone (area_code central_office_code line_number : N)
    : pystr :=
  of_string "(" ++ format_d area_code ++ of_string ") " ++
  format_0d 3 central_office_code ++ of_string "-" ++ format_0d 4 line_number.

(** The two [apply] passes of [clean_data] over a contact cell,
    [load_data.py] lines 80 and 83. *)
Definition clean_contact (is_digit : N → bool)
    (area_code central_office_code line_number : N)
    (contact : option pystr) : pystr :=
  match standardize_phone_number is_digit contact with
  | Some s => s
  | None => generate_random_phone area_code central_office_code line_number
  end.

(** The decimal digits of ASCII, an instance of [\d] on ASCII text. *)
Definition ascii_digit (c : N) : bool := ((48 <=? c) && (c <=? 57))%N.

(** ** Rows with a primary key ([clean_data], [load_data.py] line 112)

    [df.drop_duplicates(subset=[pk], keep='first')] over the rows of a
    frame, each with the value of its key column: a row is kept when no
    row before it has its key. *)
Fixpoint drop_duplicates_seen {A} (seen : gset Z) (rows : list (Z * A))
    : list (Z * A) :=
  match rows with
  | [] => []
  | r :: rest =>
      if decide (r.1 ∈ seen) then drop_duplicates_seen seen rest
      else r :: drop_duplicates_seen ({[r.1]} ∪ seen) rest
  end.

Definition drop_duplicates {A} (rows : list (Z * A)) : list (Z * A) :=
  drop_duplicates_seen ∅ rows.

(** ** Pages of the listing table ([app.py], lines 310-371) *)

Definition PAGE_SIZE : Z := 25.

(** [(total_records // PAGE_SIZE) + (1 if total_records % PAGE_SIZE > 0 else
    0)] *)
Definition total_pages (total_records : Z) : Z :=
  total_records `div` PAGE_SIZE +
  (if decide (0 < total_records `mod` PAGE_SIZE) then 1 else 0).

(** [(st.session_state.page_number - 1) * PAGE_SIZE] *)
Definition page_offset (page_number : Z) : Z := (page_number - 1) * PAGE_SIZE.

(** [LIMIT PAGE_SIZE OFFSET offset] over the rows of the ordered query; a
    negative OFFSET counts as zero in SQLite. *)
Definition current_listings {A} (page_number : Z) (rows : list A) : list A :=
  take (Z.to_nat PAGE_SIZE) (drop (Z.to_nat (page_offset page_number)) rows).

(** What the page shows under the table: the two buttons are drawn inside
    [if not current_listings_df.empty], the note "No listings found" in its
    [else]. *)
Inductive Pagination :=
  | NoListings
  | Controls (previous next : bool).

Definition pagination {A} (page_number total_records : Z) (rows : list A)
    : Pagination :=
  match current_listings page_number rows with
  | [] => NoListings
  | _ :: _ =>
      Controls (bool_decide (1 < page_number))
               (bool_decide (page_number < total_pages total_records))
  end.

Inductive PageButton := Previous | Next.

(** [page_number] after a click, where the button is drawn. *)
Definition click {A} (b : PageButton) (page_number total_records : Z)
    (rows : list A) : Z :=
  match pagination page_number total_records rows, b with
  | Controls true _, Previous => page_number - 1
  | Controls _ true, Next => page_number + 1
  | _, _ => page_number
  end.

(** ** Reports on completed claims ([sql_queries.py])

    [FROM Claims c JOIN Food_Listings fl ON c.Food_ID = fl.Food_ID WHERE
    c.Status = 'Completed']: the rows that q4, q9, q11 and q12 aggregate, by
    Claim_ID. *)
Definition completed_claims_joined (db : DB) : gmap Z (Claim.t * Listing.t) :=
  omap (λ c, if decide (Claim.Status c = Completed)
             then (λ l, (c, l)) <$> Food_Listings db !! Claim.Food_ID c
             else None)
       (Claims db).

(** [q12_most_claimed_meal_type]: [COUNT(c.Claim_ID)] of the group of a meal
    type, 0 for a type without row; the order of the groups is not
    modelled. *)
Definition q12_most_claimed_meal_type (db : DB) (meal_type : option string)
    : nat :=
  size (filter (λ kr, Listing.Meal_Type kr.2.2 = meal_type)
               (completed_claims_joined db)).


(** * Properties *)

(** ** The store *)

Lemma foldr_max_ge (k : Z) (ks : list Z) :
  k ≤ foldr Z.max k ks ∧ ∀ x, x ∈ ks → x ≤ foldr Z.max k ks.
Proof.
  induction ks as [|y ks [IHk IHx]]; simpl.
  - split; [lia|]. intros x Hx. by apply elem_of_nil in Hx.
  - split; [lia|]. intros x [->|Hx]%elem_of_cons; [lia|].
    specialize (IHx x Hx). lia.
Qed.

Lemma next_rowid_above {A} (m : gmap Z A) (k : Z) :
  is_Some (m !! k) → k < next_rowid m.
Proof.
  intros [a Ha]. unfold next_rowid.
  assert (Hk : k ∈ (map_to_list m).*1).
  { apply list_elem_of_fmap. exists (k, a). split; [done|].
    by apply elem_of_map_to_list. }
  destruct ((map_to_list m).*1) as [|k0 ks].
  - by apply elem_of_nil in Hk.
  - destruct (foldr_max_ge k0 ks) as [H0 Hks].
    apply elem_of_cons in Hk as [->|Hk]; [lia|].
    specialize (Hks k Hk). lia.
Qed.

Lemma next_rowid_fresh {A} (m : gmap Z A) : m !! next_rowid m = None.
Proof.
  destruct (m !! next_rowid m) eqn:E; [|done].
  assert (next_rowid m < next_rowid m) by (apply next_rowid_above; eauto).
  lia.
Qed.

Lemma next_rowid_positive {A} (m : gmap Z A) :
  (∀ k, is_Some (m !! k) → 0 < k) → 0 < next_rowid m.
Proof.
  intros Hpos. unfold next_rowid.
  destruct ((map_to_list m).*1) as [|k0 ks] eqn:E; [lia|].
  assert (H0 : 0 < k0).
  { apply Hpos. assert (Hk : k0 ∈ (map_to_list m).*1) by (rewrite E; left).
    apply list_elem_of_fmap in Hk as [[k a] [-> Hka]].
    apply elem_of_map_to_list in Hka. eauto. }
  destruct (foldr_max_ge k0 ks) as [H1 _]. lia.
Qed.

Lemma update_claim_status_claims s cid db c :
  Claims db !! cid = Some c →
  Claims (update_claim_status s cid db) = <[cid := set_status s c]> (Claims db).
Proof.
  intros Hc. simpl. apply map_eq. intros k.
  destruct (decide (k = cid)) as [->|Hne].
  - by rewrite lookup_alter_eq, lookup_insert_eq, Hc.
  - by rewrite lookup_alter_ne, lookup_insert_ne.
Qed.

Lemma delete_food_listing_absent fk fid db :
  Food_Listings (delete_food_listing fk fid db) !! fid = None.
Proof.
  unfold delete_food_listing.
  destruct (Food_Listings db !! fid) eqn:E; simpl; [|done].
  apply lookup_delete_eq.
Qed.

Lemma delete_food_listing_missing fk fid db :
  Food_Listings db !! fid = None → delete_food_listing fk fid db = db.
Proof. intros E. unfold delete_food_listing. by rewrite E. Qed.

Lemma delete_food_listing_unenforced fid db :
  Claims (delete_food_listing false fid db) = Claims db.
Proof. unfold delete_food_listing. by destruct (Food_Listings db !! fid). Qed.

(** ** The Pending frame of the Manage Claims page *)

Lemma claims_df_lookup s db cid :
  is_Some (claims_df s db !! cid) ↔
  ∃ c, Claims db !! cid = Some c ∧ Claim.Status c = s ∧
       is_Some (Receivers db !! Claim.Receiver_ID c).
Proof.
  unfold claims_df. split.
  - intros [c Hc]. apply map_lookup_filter_Some in Hc as [Hc [Hs Hr]].
    by exists c.
  - intros (c & Hc & Hs & Hr). exists c.
    by apply map_lookup_filter_Some.
Qed.

(** ** The two transitions out of Pending, on a claim of the Pending frame *)

Section Lifecycle.
Variable engine : Engine.
Variables (db : DB) (cid : Z) (c : Claim.t).
Hypothesis Hid : 0 < cid.
Hypothesis Hclaim : Claims db !! cid = Some c.
Hypothesis Hrecv : is_Some (Receivers db !! Claim.Receiver_ID c).

Lemma pending_listed :
  Claim.Status c = Pending → is_Some (claims_df Pending db !! cid).
Proof. intros Hs. apply claims_df_lookup. by exists c. Qed.

Lemma settled_not_listed :
  Claim.Status c ≠ Pending → ¬ is_Some (claims_df Pending db !! cid).
Proof.
  intros Hs (c' & Hc' & Hs' & _)%claims_df_lookup. congruence.
Qed.

(** Complete: the status is written; the DELETE that follows is bound to a
    [numpy.int64] and finds no row. *)
Lemma mark_as_completed_pending :
  Claim.Status c = Pending →
  mark_as_completed engine cid db =
    (update_claim_status Completed cid db, Some ClaimCompleted).
Proof.
  intros Hs. unfold mark_as_completed.
  rewrite decide_False by lia.
  rewrite decide_True by by apply pending_listed.
  unfold engine_begin, mark_as_completed_tx, tx_bind, tx_execute,
    tx_from_option.
  by rewrite Hclaim.
Qed.

(** Cancel, when the listing is there and expired: the removal is
    reported, and the DELETE, bound to a [numpy.int64], finds no row. *)
Lemma cancel_claim_expired today l :
  Claim.Status c = Pending →
  Food_Listings db !! Claim.Food_ID c = Some l →
  Listing.Expiry_Date l < today →
  cancel_claim engine today cid db =
    (update_claim_status Cancelled cid db,
     Some ClaimCancelledExpiredRemoved).
Proof.
  intros Hs Hl Hexp. unfold cancel_claim.
  rewrite decide_False by lia.
  rewrite decide_True by by apply pending_listed.
  unfold engine_begin, cancel_claim_tx, tx_bind, tx_execute, tx_query,
    food_info_df.
  rewrite Hclaim. simpl. rewrite Hl. simpl.
  by rewrite decide_True by done.
Qed.

(** Cancel, when the listing is there and not expired. *)
Lemma cancel_claim_fresh today l :
  Claim.Status c = Pending →
  Food_Listings db !! Claim.Food_ID c = Some l →
  today ≤ Listing.Expiry_Date l →
  cancel_claim engine today cid db =
    (update_claim_status Cancelled cid db, Some ClaimCancelled).
Proof.
  intros Hs Hl Hexp. unfold cancel_claim.
  rewrite decide_False by lia.
  rewrite decide_True by by apply pending_listed.
  unfold engine_begin, cancel_claim_tx, tx_bind, tx_execute, tx_query,
    food_info_df.
  rewrite Hclaim. simpl. rewrite Hl. simpl.
  by rewrite decide_False by lia.
Qed.

(** Cancel, when the listing is gone. *)
Lemma cancel_claim_gone today :
  Claim.Status c = Pending →
  Food_Listings db !! Claim.Food_ID c = None →
  cancel_claim engine today cid db =
    (update_claim_status Cancelled cid db, Some ClaimCancelledListingGone).
Proof.
  intros Hs Hl. unfold cancel_claim.
  rewrite decide_False by lia.
  rewrite decide_True by by apply pending_listed.
  unfold engine_begin, cancel_claim_tx, tx_bind, tx_execute, tx_query,
    food_info_df.
  rewrite Hclaim. simpl. by rewrite Hl.
Qed.

(** Both buttons refuse a claim that is not Pending. *)
Lemma settled_refused today :
  Claim.Status c ≠ Pending →
  mark_as_completed engine cid db = (db, Some NotAValidPendingClaim) ∧
  cancel_claim engine today cid db = (db, Some NotAValidPendingClaim).
Proof.
  intros Hs. unfold mark_as_completed, cancel_claim.
  rewrite !decide_False by (lia || by apply settled_not_listed).
  done.
Qed.
End Lifecycle.

(** * The claim lifecycle *)

(** C1, on the code. Completing claim 1 of [sample_db], Pending on listing
    10, sets its status to Completed and reports "completed and food listing
    removed"; the listing is still stored and so is claim 2 on it. The claim
    says the listing and the other claims on it are gone. *)
Theorem complete_leaves_listing_stored :
  let (db', report) := mark_as_completed get_engine 1 sample_db in
  report = Some ClaimCompleted ∧
  Claims db' !! 1 = Some (Claim.mk 10 1 Completed 0) ∧
  Food_Listings db' !! 10 = Some bread ∧
  Claims db' !! 2 = Some (Claim.mk 10 2 Pending 0) ∧
  ¬ complete_clears_listing_and_siblings get_engine sample_db 1.
Proof.
  repeat split; try by vm_compute.
  intros H.
  destruct (H (Claim.mk 10 1 Pending 0) eq_refl eq_refl) as (_ & H2 & _).
  by vm_compute in H2.
Qed.

(** C2, on the code. On day 106, cancelling claim 2 of [sample_db], Pending
    on listing 10 that expired on day 105, sets its status to Cancelled and
    reports that the expired food item has been removed; the listing is
    still stored. The claim says it is deleted. *)
Theorem cancel_expired_leaves_listing_stored :
  let (db', report) := cancel_claim get_engine 106 2 sample_db in
  report = Some ClaimCancelledExpiredRemoved ∧
  Claims db' !! 2 = Some (Claim.mk 10 2 Cancelled 0) ∧
  Food_Listings db' !! 10 = Some bread ∧
  ¬ cancel_purges_expired_listing get_engine 106 sample_db 2.
Proof.
  repeat split; try by vm_compute.
  intros H.
  destruct (H (Claim.mk 10 2 Pending 0) bread eq_refl eq_refl eq_refl
              ltac:(by vm_compute)) as (_ & H2).
  by vm_compute in H2.
Qed.

(** C3. Cancelling a Pending claim whose listing exists and expires today or
    later sets the claim's status to Cancelled and leaves the listing in
    place with every field as it was; no listing is touched. *)
Theorem cancel_fresh_keeps_listing engine today db cid c l :
  data_model db →
  Claims db !! cid = Some c →
  Claim.Status c = Pending →
  Food_Listings db !! Claim.Food_ID c = Some l →
  today ≤ Listing.Expiry_Date l →
  let (db', report) := cancel_claim engine today cid db in
  report = Some ClaimCancelled ∧
  Claims db' !! cid = Some (set_status Cancelled c) ∧
  Food_Listings db' !! Claim.Food_ID c = Some l ∧
  Food_Listings db' = Food_Listings db.
Proof.
  intros Hdm Hc Hs Hl Hexp. destruct (Hdm cid c Hc) as [Hid Hr].
  rewrite (cancel_claim_fresh engine db cid c Hid Hc Hr today l Hs Hl Hexp).
  split; [done|]. split; [|done].
  rewrite (update_claim_status_claims _ _ _ c Hc). apply lookup_insert_eq.
Qed.

Lemma cancel_fresh_keeps_listing_witness :
  let (db', report) := cancel_claim get_engine 105 1 sample_db in
  report = Some ClaimCancelled ∧
  Claims db' !! 1 = Some (set_status Cancelled (Claim.mk 10 1 Pending 0)) ∧
  Food_Listings db' !! Claim.Food_ID (Claim.mk 10 1 Pending 0) = Some bread ∧
  Food_Listings db' = Food_Listings sample_db.
Proof.
  apply (cancel_fresh_keeps_listing get_engine 105 sample_db 1
           (Claim.mk 10 1 Pending 0) bread).
  - apply (bool_decide_unpack _). by vm_compute.
  - by vm_compute.
  - reflexivity.
  - by vm_compute.
  - by vm_compute.
Defined.

(** C4. On a claim whose status is Completed or Cancelled, Complete and
    Cancel both fail with the not-found error "not a valid pending claim"
    and leave the whole database as it was. *)
Theorem settled_claim_refused engine today db cid c :
  data_model db →
  Claims db !! cid = Some c →
  Claim.Status c = Completed ∨ Claim.Status c = Cancelled →
  mark_as_completed engine cid db = (db, Some NotAValidPendingClaim) ∧
  cancel_claim engine today cid db = (db, Some NotAValidPendingClaim) ∧
  error_kind NotAValidPendingClaim = Some NotFoundError.
Proof.
  intros Hdm Hc Hs. destruct (Hdm cid c Hc) as [Hid _].
  assert (Hnp : Claim.Status c ≠ Pending) by (destruct Hs; congruence).
  destruct (settled_refused engine db cid c Hid Hc today Hnp) as [H1 H2].
  done.
Qed.

Lemma settled_claim_refused_witness :
  mark_as_completed get_engine 3 sample_db =
    (sample_db, Some NotAValidPendingClaim) ∧
  cancel_claim get_engine 100 3 sample_db =
    (sample_db, Some NotAValidPendingClaim) ∧
  error_kind NotAValidPendingClaim = Some NotFoundError.
Proof.
  apply (settled_claim_refused get_engine 100 sample_db 3
           (Claim.mk 7 1 Completed 0)).
  - apply (bool_decide_unpack _). by vm_compute.
  - by vm_compute.
  - by left.
Defined.

(** C9. Cancelling a Pending claim whose Food_ID references no listing
    succeeds, sets that claim's status to Cancelled and changes nothing else
    in the database. *)
Theorem cancel_without_listing engine today db cid c :
  data_model db →
  Claims db !! cid = Some c →
  Claim.Status c = Pending →
  Food_Listings db !! Claim.Food_ID c = None →
  cancel_claim engine today cid db =
    (mkDB (Providers db) (Receivers db) (Food_Listings db)
          (<[cid := set_status Cancelled c]> (Claims db)),
     Some ClaimCancelledListingGone).
Proof.
  intros Hdm Hc Hs Hl. destruct (Hdm cid c Hc) as [Hid Hr].
  rewrite (cancel_claim_gone engine db cid c Hid Hc Hr today Hs Hl).
  f_equal. unfold update_claim_status. f_equal.
  apply (update_claim_status_claims Cancelled cid db c Hc).
Qed.

Lemma cancel_without_listing_witness :
  cancel_claim get_engine 100 4 sample_db =
    (mkDB (Providers sample_db) (Receivers sample_db) (Food_Listings sample_db)
          (<[4 := set_status Cancelled (Claim.mk 8 2 Pending 0)]>
             (Claims sample_db)),
     Some ClaimCancelledListingGone).
Proof.
  apply (cancel_without_listing get_engine 100 sample_db 4
           (Claim.mk 8 2 Pending 0)).
  - apply (bool_decide_unpack _). by vm_compute.
  - by vm_compute.
  - reflexivity.
  - by vm_compute.
Defined.

(** C10. Completing a Pending claim whose Food_ID references no listing
    succeeds: the claim's status becomes Completed, the deletion of the
    listing finds no row, and no other row is affected. *)
Theorem complete_without_listing engine db cid c :
  data_model db →
  Claims db !! cid = Some c →
  Claim.Status c = Pending →
  Food_Listings db !! Claim.Food_ID c = None →
  mark_as_completed engine cid db =
    (mkDB (Providers db) (Receivers db) (Food_Listings db)
          (<[cid := set_status Completed c]> (Claims db)),
     Some ClaimCompleted).
Proof.
  intros Hdm Hc Hs Hl. destruct (Hdm cid c Hc) as [Hid Hr].
  rewrite (mark_as_completed_pending engine db cid c Hid Hc Hr Hs).
  f_equal. unfold update_claim_status. f_equal.
  apply (update_claim_status_claims Completed cid db c Hc).
Qed.

Lemma complete_without_listing_witness :
  mark_as_completed get_engine 4 sample_db =
    (mkDB (Providers sample_db) (Receivers sample_db) (Food_Listings sample_db)
          (<[4 := set_status Completed (Claim.mk 8 2 Pending 0)]>
             (Claims sample_db)),
     Some ClaimCompleted).
Proof.
  apply (complete_without_listing get_engine sample_db 4
           (Claim.mk 8 2 Pending 0)).
  - apply (bool_decide_unpack _). by vm_compute.
  - by vm_compute.
  - reflexivity.
  - by vm_compute.
Defined.

(** * Creating a listing *)

(** C5. A create request whose expiry date is strictly before today fails
    with a validation error, raised before the database is touched: no
    listing and no claim is stored, the database is unchanged. With a
    provider selected and a food name given, the error is the one about the
    expiry date. *)
Theorem create_past_expiry_rejected engine today now draw f db :
  expiry_date f < today →
  ∃ m, add_listing engine today now draw f db = (db, Some m) ∧
       error_kind m = Some ValidationError ∧
       (∀ name, selected_provider_name f = Some name → name ≠ EmptyString →
                food_name f ≠ EmptyString → m = ExpiryInPast).
Proof.
  intros Hexp. unfold add_listing.
  destruct (selected_provider_name f) as [name|].
  - destruct (decide (name = EmptyString)) as [Hn|Hn].
    + exists NoProviderSelected. repeat split; [].
      intros name' [= <-] Hne. by destruct Hne.
    + destruct (decide (food_name f = EmptyString)) as [Hf|Hf].
      * exists FoodNameEmpty. repeat split; []. by intros.
      * rewrite decide_True by done. by exists ExpiryInPast.
  - exists NoProviderSelected. repeat split; []. by intros.
Qed.

Lemma create_past_expiry_rejected_witness :
  ∃ m, add_listing get_engine 121 0 0 soup_form sample_db = (sample_db, Some m) ∧
       error_kind m = Some ValidationError ∧
       (∀ name, selected_provider_name soup_form = Some name →
                name ≠ EmptyString → food_name soup_form ≠ EmptyString →
                m = ExpiryInPast).
Proof.
  apply (create_past_expiry_rejected get_engine 121 0 0%nat soup_form sample_db).
  by vm_compute.
Defined.

(** * The quantity invariant *)

Lemma update_claim_status_listings s cid db :
  Food_Listings (update_claim_status s cid db) = Food_Listings db.
Proof. done. Qed.

Lemma delete_food_listing_quantity fk fid db :
  quantity_positive db → quantity_positive (delete_food_listing fk fid db).
Proof.
  unfold quantity_positive, delete_food_listing. intros H.
  destruct (Food_Listings db !! fid); simpl; [|done].
  by apply map_Forall_delete.
Qed.

Lemma insert_food_listing_quantity fk l db fid db' :
  quantity_positive db →
  insert_food_listing fk l db = inr (fid, db') →
  quantity_positive db'.
Proof.
  unfold quantity_positive, insert_food_listing. intros H Hins.
  destruct (decide (0 < Listing.Quantity l)); [|done].
  destruct (decide _); [done|]. injection Hins as <- <-. simpl.
  by apply map_Forall_insert_2.
Qed.

Lemma insert_claim_listings fk now fid rid db u db' :
  insert_claim fk now fid rid db = inr (u, db') →
  Food_Listings db' = Food_Listings db.
Proof.
  unfold insert_claim. destruct (decide _); [done|]. by intros [= _ <-].
Qed.

Lemma update_food_listing_quantity fid qty exp db u db' :
  quantity_positive db →
  update_food_listing fid qty exp db = inr (u, db') →
  quantity_positive db'.
Proof.
  unfold quantity_positive, update_food_listing. intros H Hupd.
  destruct (Food_Listings db !! fid) as [l|].
  - destruct (decide (0 < qty)); [|done]. injection Hupd as _ <-. simpl.
    by apply map_Forall_insert_2.
  - by injection Hupd as _ <-.
Qed.

Section Invariant.
Variable engine : Engine.

Lemma add_listing_quantity today now draw f db :
  quantity_positive db →
  quantity_positive (add_listing engine today now draw f db).1.
Proof.
  intros H. unfold add_listing.
  destruct (selected_provider_name f) as [name|]; [|done].
  repeat (destruct (decide _); [done|]).
  unfold engine_begin, add_listing_tx, tx_bind, tx_from_option, tx_query,
    tx_ret, tx_raise.
  destruct (provider_map f !! name) as [pid|]; [|done].
  destruct (Providers db !! pid) as [p|]; [|done].
  destruct (insert_food_listing _ _ db) as [e|[fid db1]] eqn:Hins; [done|].
  pose proof (insert_food_listing_quantity _ _ _ _ _ H Hins) as H1.
  destruct (receiver_ids db1) as [|r rs]; [done|].
  destruct (random_choice draw (r :: rs)) as [rid|]; [|done].
  destruct (insert_claim _ now fid rid db1) as [e|[u db2]] eqn:Hcl; [done|].
  simpl. unfold quantity_positive.
  by rewrite (insert_claim_listings _ _ _ _ _ _ _ Hcl).
Qed.

Lemma update_listing_quantity today fid qty exp db :
  quantity_positive db →
  quantity_positive (update_listing today fid qty exp db).1.
Proof.
  intros H. unfold update_listing.
  destruct (decide _); [done|].
  destruct (Food_Listings db !! fid) as [l|] eqn:El; [|done].
  destruct (decide _); [done|].
  unfold execute_mutation, engine_begin.
  destruct (update_food_listing fid qty exp db) as [e|[u db1]] eqn:Hupd;
    [done|].
  simpl. by eapply update_food_listing_quantity.
Qed.

Lemma delete_listing_quantity fid db :
  quantity_positive db →
  quantity_positive (delete_listing engine fid db).1.
Proof.
  intros H. unfold delete_listing.
  destruct (decide _); [done|].
  destruct (Food_Listings db !! fid) as [l|] eqn:El; [|done].
  simpl. by apply delete_food_listing_quantity.
Qed.

Lemma mark_as_completed_quantity cid db :
  quantity_positive db →
  quantity_positive (mark_as_completed engine cid db).1.
Proof.
  intros H. unfold mark_as_completed.
  destruct (decide _); [done|]. destruct (decide _); [|done].
  unfold engine_begin, mark_as_completed_tx, tx_bind, tx_execute,
    tx_from_option.
  by destruct (Claims db !! cid) as [c|].
Qed.

Lemma cancel_claim_quantity today cid db :
  quantity_positive db →
  quantity_positive (cancel_claim engine today cid db).1.
Proof.
  intros H. unfold cancel_claim.
  destruct (decide _); [done|]. destruct (decide _); [|done].
  unfold engine_begin, cancel_claim_tx, tx_bind, tx_execute, tx_query,
    tx_ret.
  destruct (food_info_df cid db) as [[fid exp]|]; [|done].
  by destruct (decide _).
Qed.

Lemma run_quantity today op db :
  quantity_positive db → quantity_positive (run engine today op db).1.
Proof.
  destruct op; simpl;
    auto using add_listing_quantity, update_listing_quantity,
      delete_listing_quantity, mark_as_completed_quantity,
      cancel_claim_quantity.
Qed.
End Invariant.

(** C6. From a database whose listings all have a positive quantity, every
    state reached through Create, Update, Delete, Complete and Cancel has
    Quantity > 0 on every stored listing, and each of the five operations
    keeps it so. *)
Theorem quantity_always_positive engine init db :
  quantity_positive init →
  reachable engine init db →
  quantity_positive db ∧
  ∀ today op, quantity_positive (run engine today op db).1.
Proof.
  intros Hinit Hreach.
  assert (Hdb : quantity_positive db).
  { induction Hreach as [|today op db Hreach IH]; [done|].
    by apply run_quantity. }
  split; [done|]. intros today op. by apply run_quantity.
Qed.

Lemma quantity_always_positive_witness :
  quantity_positive (run get_engine 100 (Update 10 3 110) sample_db).1 ∧
  ∀ today op,
    quantity_positive
      (run get_engine today op
         (run get_engine 100 (Update 10 3 110) sample_db).1).1.
Proof.
  apply (quantity_always_positive get_engine sample_db).
  - apply (bool_decide_unpack _). by vm_compute.
  - apply reachable_run. apply reachable_init.
Defined.

(** * The claim created with a listing *)

Lemma receiver_ids_NoDup db : NoDup (receiver_ids db).
Proof. apply NoDup_fst_map_to_list. Qed.

Lemma receiver_ids_elem db rid :
  rid ∈ receiver_ids db ↔ is_Some (Receivers db !! rid).
Proof.
  unfold receiver_ids. rewrite list_elem_of_fmap. split.
  - intros [[k r] [-> Hkr]]. apply elem_of_map_to_list in Hkr. eauto.
  - intros [r Hr]. exists (rid, r). split; [done|].
    by apply elem_of_map_to_list.
Qed.

Lemma receiver_ids_nil db : receiver_ids db = [] ↔ Receivers db = ∅.
Proof.
  unfold receiver_ids. split.
  - intros H. apply fmap_nil_inv in H. by apply map_to_list_empty_iff.
  - intros ->. by rewrite map_to_list_empty.
Qed.

Lemma receiver_ids_length db :
  length (receiver_ids db) = size (Receivers db).
Proof. unfold receiver_ids. by rewrite length_fmap, length_map_to_list. Qed.

Lemma random_choice_elem draw l rid :
  random_choice draw l = Some rid → rid ∈ l.
Proof. unfold random_choice. intros H. by eapply list_elem_of_lookup_2. Qed.

Lemma random_choice_in_range (draw : nat) (l : list Z) :
  (draw < length l)%nat → random_choice draw l = l !! draw.
Proof. intros H. unfold random_choice. by rewrite Nat.mod_small. Qed.

(** Over the draws below [len(l)], each entry of a list without duplicates
    is the choice of exactly one draw. *)
Lemma random_choice_uniform (l : list Z) (x : Z) :
  NoDup l → x ∈ l →
  ∃ k : nat, (k < length l)%nat ∧ random_choice k l = Some x ∧
    ∀ k' : nat, (k' < length l)%nat → random_choice k' l = Some x → k' = k.
Proof.
  intros Hnd Hx. apply list_elem_of_lookup in Hx as [k Hk].
  assert (Hlt : (k < length l)%nat) by by eapply lookup_lt_Some.
  exists k. split; [done|]. split.
  - by rewrite random_choice_in_range.
  - intros k' Hlt' Hk'. rewrite random_choice_in_range in Hk' by done.
    by eapply NoDup_lookup.
Qed.

(** C7. A Create that succeeds stores one new listing. When receivers
    exist, it stores exactly one new claim as well: Pending, on the new
    Food_ID, for the receiver [random.choice] draws from the ids of all
    receivers, each of which is the choice of exactly one of the equally
    likely draws. When no receiver exists, no claim is stored. *)
Theorem create_assigns_one_claim engine today now draw f db db' m :
  add_listing engine today now draw f db = (db', Some m) →
  m = AddedWithPendingClaim ∨ m = AddedNoReceivers →
  ∃ fid row,
    Food_Listings db !! fid = None ∧
    Food_Listings db' = <[fid := row]> (Food_Listings db) ∧
    Listing.Quantity row = quantity f ∧
    Listing.Expiry_Date row = expiry_date f ∧
    Providers db' = Providers db ∧ Receivers db' = Receivers db ∧
    (Receivers db = ∅ → m = AddedNoReceivers ∧ Claims db' = Claims db) ∧
    (Receivers db ≠ ∅ →
       m = AddedWithPendingClaim ∧
       ∃ cid rid,
         Claims db !! cid = None ∧
         Claims db' = <[cid := Claim.mk fid rid Pending now]> (Claims db) ∧
         is_Some (Receivers db !! rid) ∧
         random_choice draw (receiver_ids db) = Some rid) ∧
    (∀ rid, is_Some (Receivers db !! rid) →
       ∃ k : nat, (k < size (Receivers db))%nat ∧
         random_choice k (receiver_ids db) = Some rid ∧
         ∀ k' : nat, (k' < size (Receivers db))%nat →
           random_choice k' (receiver_ids db) = Some rid → k' = k).
Proof.
  intros Hrun Hok. unfold add_listing in Hrun.
  destruct (selected_provider_name f) as [name|];
    [|destruct Hok; congruence].
  repeat (destruct (decide _); [destruct Hok; congruence|]).
  unfold engine_begin, add_listing_tx, tx_bind, tx_from_option, tx_query,
    tx_ret, tx_raise in Hrun.
  destruct (provider_map f !! name) as [pid|];
    [|destruct Hok; congruence].
  destruct (Providers db !! pid) as [p|];
    [|destruct Hok; congruence].
  unfold insert_food_listing in Hrun.
  destruct (decide (0 < _)); [|destruct Hok; simpl in Hrun; congruence].
  destruct (decide (_ ∧ _)); [destruct Hok; simpl in Hrun; congruence|].
  simpl in Hrun.
  eexists (next_rowid (Food_Listings db)), _.
  split; [apply next_rowid_fresh|].
  assert (Huni : ∀ rid, is_Some (Receivers db !! rid) →
     ∃ k : nat, (k < size (Receivers db))%nat ∧
       random_choice k (receiver_ids db) = Some rid ∧
       ∀ k' : nat, (k' < size (Receivers db))%nat →
         random_choice k' (receiver_ids db) = Some rid → k' = k).
  { intros rid Hrid. rewrite <- receiver_ids_length.
    apply random_choice_uniform; [apply receiver_ids_NoDup|].
    by apply receiver_ids_elem. }
  unfold receiver_ids in Hrun. simpl in Hrun.
  fold (receiver_ids db) in Hrun.
  destruct (receiver_ids db) as [|r rs] eqn:Hids.
  - injection Hrun as <- <-. simpl.
    apply receiver_ids_nil in Hids.
    repeat split; done.
  - destruct (random_choice draw (r :: rs)) as [rid|] eqn:Hch;
      [|destruct Hok; simpl in Hrun; congruence].
    assert (Hrid : is_Some (Receivers db !! rid)).
    { apply receiver_ids_elem. rewrite Hids. by eapply random_choice_elem. }
    unfold insert_claim in Hrun. simpl in Hrun.
    destruct (decide (_ ∧ _)); [destruct Hok; simpl in Hrun; congruence|].
    simpl in Hrun. injection Hrun as <- <-. simpl.
    assert (Hne : Receivers db ≠ ∅).
    { intros Hemp. rewrite <- receiver_ids_nil in Hemp. congruence. }
    repeat split; try done.
    exists (next_rowid (Claims db)), rid.
    split; [apply next_rowid_fresh|]. done.
Qed.

Lemma create_assigns_one_claim_witness :
  let db' := (add_listing get_engine 100 7 1 soup_form sample_db).1 in
  ∃ fid row,
    Food_Listings sample_db !! fid = None ∧
    Food_Listings db' = <[fid := row]> (Food_Listings sample_db) ∧
    Listing.Quantity row = quantity soup_form ∧
    Listing.Expiry_Date row = expiry_date soup_form ∧
    Providers db' = Providers sample_db ∧ Receivers db' = Receivers sample_db ∧
    (Receivers sample_db = ∅ →
       AddedWithPendingClaim = AddedNoReceivers ∧ Claims db' = Claims sample_db) ∧
    (Receivers sample_db ≠ ∅ →
       AddedWithPendingClaim = AddedWithPendingClaim ∧
       ∃ cid rid,
         Claims sample_db !! cid = None ∧
         Claims db' = <[cid := Claim.mk fid rid Pending 7]> (Claims sample_db) ∧
         is_Some (Receivers sample_db !! rid) ∧
         random_choice 1 (receiver_ids sample_db) = Some rid) ∧
    (∀ rid, is_Some (Receivers sample_db !! rid) →
       ∃ k : nat, (k < size (Receivers sample_db))%nat ∧
         random_choice k (receiver_ids sample_db) = Some rid ∧
         ∀ k' : nat, (k' < size (Receivers sample_db))%nat →
           random_choice k' (receiver_ids sample_db) = Some rid → k' = k).
Proof.
  apply (create_assigns_one_claim get_engine 100 7 1%nat soup_form sample_db
           _ AddedWithPendingClaim).
  - by vm_compute.
  - by left.
Defined.

(** Create does succeed on a form that passes the checks and names a stored
    provider, whether or not foreign keys are enforced. *)
Lemma add_listing_succeeds engine today now draw f db name pid p :
  selected_provider_name f = Some name →
  name ≠ EmptyString →
  food_name f ≠ EmptyString →
  today ≤ expiry_date f →
  provider_map f !! name = Some pid →
  Providers db !! pid = Some p →
  0 < quantity f →
  ∃ db',
    add_listing engine today now draw f db =
      (db', Some (if decide (Receivers db = ∅) then AddedNoReceivers
                  else AddedWithPendingClaim)).
Proof.
  intros Hsel Hname Hfood Hexp Hmap Hprov Hqty. unfold add_listing.
  rewrite Hsel. rewrite !decide_False by (done || lia).
  unfold engine_begin, add_listing_tx, tx_bind, tx_from_option, tx_query,
    tx_ret, tx_raise.
  rewrite Hmap, Hprov. unfold insert_food_listing. simpl.
  rewrite decide_True by done.
  rewrite decide_False by (intros [_ ?]; congruence).
  unfold receiver_ids. simpl. fold (receiver_ids db).
  destruct (receiver_ids db) as [|r rs] eqn:Hids.
  - apply receiver_ids_nil in Hids. rewrite decide_True by done. eauto.
  - assert (Hne : Receivers db ≠ ∅).
    { intros Hemp. rewrite <- receiver_ids_nil in Hemp. congruence. }
    rewrite decide_False by done.
    destruct (random_choice draw (r :: rs)) as [rid|] eqn:Hch.
    + assert (Hrid : is_Some (Receivers db !! rid)).
      { apply receiver_ids_elem. rewrite Hids. by eapply random_choice_elem. }
      unfold insert_claim. simpl. rewrite decide_False; [eauto|].
      intros [_ [Hl|Hr]].
      * by rewrite lookup_insert_eq in Hl.
      * rewrite Hr in Hrid. by destruct Hrid.
    + unfold random_choice in Hch. apply lookup_ge_None in Hch.
      assert ((draw mod length (r :: rs)) < length (r :: rs))%nat
        by (apply Nat.mod_upper_bound; simpl; lia).
      lia.
Qed.

(** * Deleting a provider *)

(** With foreign keys enforced, the cascades of the schema remove the
    listings of a deleted provider and the claims on them. *)
Lemma delete_provider_enforced db pid p :
  Providers db !! pid = Some p →
  provider_delete_cascades (mkEngine true) db pid.
Proof.
  intros Hp. unfold provider_delete_cascades, delete_provider. simpl.
  rewrite Hp. simpl. split.
  - intros fid l Hl Hpid. apply map_lookup_filter_None. right.
    intros l' Hl'. simpl. congruence.
  - intros cid c l Hc Hl Hpid. apply map_lookup_filter_None. right.
    intros c' Hc'. simpl. assert (c' = c) as -> by congruence.
    rewrite Hl. simpl. intros Hne. by destruct Hne; f_equal.
Qed.

(** C8, on the engine of the application. Deleting provider 1 of
    [sample_db] removes the provider row only: its listing 10 and the claims
    1 and 2 on that listing are still stored, because the connection does
    not enforce the foreign keys that carry the cascade. *)
Theorem delete_provider_keeps_listings :
  let db' := delete_provider (foreign_keys get_engine) 1 sample_db in
  Providers db' !! 1 = None ∧
  Food_Listings db' !! 10 = Some bread ∧
  Claims db' !! 1 = Some (Claim.mk 10 1 Pending 0) ∧
  Claims db' !! 2 = Some (Claim.mk 10 2 Pending 0) ∧
  ¬ provider_delete_cascades get_engine sample_db 1.
Proof.
  repeat split; try by vm_compute.
  intros [H _]. specialize (H 10 bread). vm_compute in H.
  by specialize (H eq_refl eq_refl).
Qed.

(** * The data model is kept by every operation *)

Lemma update_claim_status_data_model s cid db :
  data_model db → data_model (update_claim_status s cid db).
Proof.
  intros H k c' Hc'. simpl in Hc'.
  apply lookup_alter_Some in Hc' as [(-> & c & Hc & ->)|[_ Hc]];
    by apply (H _ _ Hc).
Qed.

Lemma delete_food_listing_data_model fk fid db :
  data_model db → data_model (delete_food_listing fk fid db).
Proof.
  intros H. unfold delete_food_listing.
  destruct (Food_Listings db !! fid); [|done].
  destruct fk; [|done].
  intros k c Hc. simpl in Hc.
  apply map_lookup_filter_Some in Hc as [Hc _]. by apply (H _ _ Hc).
Qed.

Lemma insert_food_listing_data_model fk l db fid db' :
  insert_food_listing fk l db = inr (fid, db') →
  data_model db → data_model db'.
Proof.
  unfold insert_food_listing.
  destruct (decide (0 < _)); [|done]. destruct (decide _); [done|].
  by intros [= _ <-].
Qed.

Lemma insert_claim_data_model fk now fid rid db u db' :
  insert_claim fk now fid rid db = inr (u, db') →
  is_Some (Receivers db !! rid) →
  data_model db → data_model db'.
Proof.
  unfold insert_claim. destruct (decide _); [done|].
  intros [= _ <-] Hrid H. apply map_Forall_insert_2; [|done].
  split; [|done]. apply next_rowid_positive.
  intros k [c Hc]. by destruct (H _ _ Hc).
Qed.

Lemma update_food_listing_data_model fid qty exp db u db' :
  update_food_listing fid qty exp db = inr (u, db') →
  data_model db → data_model db'.
Proof.
  unfold update_food_listing.
  destruct (Food_Listings db !! fid); [|by intros [= _ <-]].
  destruct (decide _); [|done]. by intros [= _ <-].
Qed.

Lemma run_data_model engine today op db :
  data_model db → data_model (run engine today op db).1.
Proof.
  intros H. destruct op as [now draw f|fid qty exp|fid|cid|cid]; simpl.
  - unfold add_listing.
    destruct (selected_provider_name f) as [name|]; [|done].
    repeat (destruct (decide _); [done|]).
    unfold engine_begin, add_listing_tx, tx_bind, tx_from_option, tx_query,
      tx_ret, tx_raise.
    destruct (provider_map f !! name) as [pid|]; [|done].
    destruct (Providers db !! pid) as [p|]; [|done].
    destruct (insert_food_listing _ _ db) as [e|[fid db1]] eqn:Hins; [done|].
    pose proof (insert_food_listing_data_model _ _ _ _ _ Hins H) as H1.
    destruct (receiver_ids db1) as [|r rs] eqn:Hids; [done|].
    destruct (random_choice draw (r :: rs)) as [rid|] eqn:Hch; [|done].
    destruct (insert_claim _ now fid rid db1) as [e|[u db2]] eqn:Hcl; [done|].
    simpl. eapply insert_claim_data_model; [done| |done].
    apply receiver_ids_elem. rewrite Hids. by eapply random_choice_elem.
  - unfold update_listing.
    destruct (decide _); [done|].
    destruct (Food_Listings db !! fid); [|done].
    destruct (decide _); [done|]. unfold execute_mutation, engine_begin.
    destruct (update_food_listing fid qty exp db) as [e|[u db1]] eqn:Hupd;
      [done|].
    simpl. by eapply update_food_listing_data_model.
  - unfold delete_listing.
    destruct (decide _); [done|].
    destruct (Food_Listings db !! fid); [|done].
    simpl. by apply delete_food_listing_data_model.
  - unfold mark_as_completed.
    destruct (decide _); [done|]. destruct (decide _); [|done].
    unfold engine_begin, mark_as_completed_tx, tx_bind, tx_execute,
      tx_from_option.
    destruct (Claims db !! cid) as [c|]; simpl; [|done].
    by apply update_claim_status_data_model.
  - unfold cancel_claim.
    destruct (decide _); [done|]. destruct (decide _); [|done].
    unfold engine_begin, cancel_claim_tx, tx_bind, tx_execute, tx_query,
      tx_ret.
    destruct (food_info_df cid db) as [[fid exp]|];
      [|by apply update_claim_status_data_model].
    destruct (decide _); simpl; by apply update_claim_status_data_model.
Qed.

Lemma reachable_data_model engine init db :
  data_model init → reachable engine init db → data_model db.
Proof.
  intros Hinit Hreach.
  induction Hreach as [|today op db Hreach IH]; [done|].
  by apply run_data_model.
Qed.

(** * What Complete and Cancel write *)

(** Whatever the engine, Complete on a Pending claim writes the status of
    that claim and nothing else: the listing and the other claims on it
    stay as they were. *)
Lemma complete_writes_status_only engine db cid c :
  data_model db →
  Claims db !! cid = Some c →
  Claim.Status c = Pending →
  (mark_as_completed engine cid db).1 =
    mkDB (Providers db) (Receivers db) (Food_Listings db)
         (<[cid := set_status Completed c]> (Claims db)).
Proof.
  intros Hdm Hc Hs. destruct (Hdm cid c Hc) as [Hid Hr].
  rewrite (mark_as_completed_pending engine db cid c Hid Hc Hr Hs).
  unfold fst, update_claim_status. f_equal.
  by apply (update_claim_status_claims Completed cid db c).
Qed.

(** So does Cancel, on a listing that expired as on any other. *)
Lemma cancel_writes_status_only engine today db cid c :
  data_model db →
  Claims db !! cid = Some c →
  Claim.Status c = Pending →
  (cancel_claim engine today cid db).1 =
    mkDB (Providers db) (Receivers db) (Food_Listings db)
         (<[cid := set_status Cancelled c]> (Claims db)).
Proof.
  intros Hdm Hc Hs. destruct (Hdm cid c Hc) as [Hid Hr].
  assert (Hres : (cancel_claim engine today cid db).1 =
                 update_claim_status Cancelled cid db).
  { destruct (Food_Listings db !! Claim.Food_ID c) as [l|] eqn:Hl.
    - destruct (decide (Listing.Expiry_Date l < today)) as [Hexp|Hexp].
      + by rewrite (cancel_claim_expired engine db cid c Hid Hc Hr today l).
      + rewrite (cancel_claim_fresh engine db cid c Hid Hc Hr today l);
          [done..|lia].
    - by rewrite (cancel_claim_gone engine db cid c Hid Hc Hr today). }
  rewrite Hres. unfold update_claim_status. f_equal.
  by apply (update_claim_status_claims Cancelled cid db c).
Qed.

(** The same DELETE bound to a Python [int], as the Delete Listing page
    binds it, does remove the listing. *)
Lemma delete_where_int_removes fk fid db :
  Food_Listings (delete_food_listing_where fk (PyInt fid) db) !! fid = None.
Proof. apply delete_food_listing_absent. Qed.

(** * Two runs on [sample_db] *)

(** The CHECK of the schema, not the form, is what refuses a quantity of
    zero: the transaction rolls back. *)
Example update_zero_quantity_refused :
  run get_engine 100 (Update 10 0 110) sample_db =
    (sample_db, Some (Uncaught IntegrityError)).
Proof. by vm_compute. Qed.

(** Deleting a listing on the engine of the application leaves its Pending
    claims behind: this is how a Pending claim comes to reference a listing
    that is gone. *)
Example delete_leaves_pending_claim :
  let db' := (run get_engine 100 (Delete 10) sample_db).1 in
  Food_Listings db' !! 10 = None ∧
  Claims db' !! 1 = Some (Claim.mk 10 1 Pending 0) ∧
  reachable get_engine sample_db db'.
Proof.
  repeat split; try by vm_compute.
  apply reachable_run, reachable_init.
Qed.

(** * Text: phone numbers and PIN codes ([load_data.py]) *)

Lemma ascii_digit_spec (c : N) :
  (c < 128)%N → ascii_digit c = true ↔ (48 ≤ c ≤ 57)%N.
Proof.
  intros _. unfold ascii_digit.
  rewrite andb_true_iff, !N.leb_le. done.
Qed.

Lemma decimal_3 (n : N) :
  (100 ≤ n ≤ 999)%N →
  format_d n = [48 + n / 100; 48 + n / 10 mod 10; 48 + n mod 10]%N.
Proof.
  intros Hn. unfold format_d.
  destruct (N.to_nat n) as [|[|[|k]]] eqn:E; try lia.
  assert (H1 : (n / 10 ≠ 0)%N) by (zify; Z.div_mod_to_equations; lia).
  assert (H2 : (n / 10 / 10 ≠ 0)%N) by (zify; Z.div_mod_to_equations; lia).
  assert (H3 : (n / 10 / 10 / 10 = 0)%N) by (zify; Z.div_mod_to_equations; lia).
  assert (H4 : (n / 10 / 10 mod 10 = n / 100)%N).
  { rewrite N.Div0.div_div. change (10 * 10)%N with 100%N.
    apply N.mod_small. zify; Z.div_mod_to_equations; lia. }
  simpl. rewrite !decide_False by done. rewrite decide_True by done.
  by rewrite H4.
Qed.

Lemma decimal_4 (n : N) :
  (1000 ≤ n ≤ 9999)%N →
  format_d n =
    [48 + n / 1000; 48 + n / 100 mod 10; 48 + n / 10 mod 10; 48 + n mod 10]%N.
Proof.
  intros Hn. unfold format_d.
  destruct (N.to_nat n) as [|[|[|[|k]]]] eqn:E; try lia.
  assert (H1 : (n / 10 ≠ 0)%N) by (zify; Z.div_mod_to_equations; lia).
  assert (H2 : (n / 10 / 10 ≠ 0)%N) by (zify; Z.div_mod_to_equations; lia).
  assert (H3 : (n / 10 / 10 / 10 ≠ 0)%N) by (zify; Z.div_mod_to_equations; lia).
  assert (H4 : (n / 10 / 10 / 10 / 10 = 0)%N)
    by (zify; Z.div_mod_to_equations; lia).
  assert (H5 : (n / 10 / 10 / 10 mod 10 = n / 1000)%N).
  { rewrite !N.Div0.div_div. change (10 * 10 * 10)%N with 1000%N.
    apply N.mod_small. zify; Z.div_mod_to_equations; lia. }
  assert (H6 : (n / 10 / 10 mod 10 = n / 100 mod 10)%N).
  { by rewrite N.Div0.div_div. }
  simpl. rewrite !decide_False by done. rewrite decide_True by done.
  by rewrite H5, H6.
Qed.

Section PhoneNumbers.
Variable is_digit : N → bool.

(** Below 128 the decimal digits of Unicode are the ten ASCII digits. *)
Hypothesis ascii_digits :
  ∀ c, (c < 128)%N → is_digit c = true ↔ (48 ≤ c ≤ 57)%N.

Lemma findall_digits_are_digits (s : pystr) :
  Forall (λ c, is_digit c = true) (findall_digits is_digit s).
Proof.
  apply Forall_forall. intros c Hc.
  by apply list_elem_of_filter in Hc as [Hc _].
Qed.

Lemma findall_digits_all (l : pystr) :
  Forall (λ c, is_digit c = true) l → findall_digits is_digit l = l.
Proof.
  unfold findall_digits. induction 1 as [|c l Hc Hl IH]; [done|].
  rewrite filter_cons_True by done. by rewrite IH.
Qed.

Lemma findall_digits_app (s t : pystr) :
  findall_digits is_digit (s ++ t) =
    findall_digits is_digit s ++ findall_digits is_digit t.
Proof. apply filter_app. Qed.

Lemma findall_digits_none (l : pystr) :
  Forall (λ c, (c < 48)%N) l → findall_digits is_digit l = [].
Proof.
  unfold findall_digits. induction 1 as [|c l Hc Hl IH]; [done|].
  rewrite filter_cons_False; [done|].
  intros Hd. apply ascii_digits in Hd; lia.
Qed.

(** The digits of a number laid out as "(abc) def-ghij". *)
Lemma findall_digits_layout (a b c : pystr) :
  Forall (λ c, is_digit c = true) a →
  Forall (λ c, is_digit c = true) b →
  Forall (λ c, is_digit c = true) c →
  findall_digits is_digit
    (of_string "(" ++ a ++ of_string ") " ++ b ++ of_string "-" ++ c) =
    a ++ b ++ c.
Proof.
  intros Ha Hb Hc. rewrite !findall_digits_app.
  rewrite (findall_digits_all a), (findall_digits_all b),
    (findall_digits_all c) by done.
  rewrite (findall_digits_none (of_string "(")),
    (findall_digits_none (of_string ") ")),
    (findall_digits_none (of_string "-"))
    by (repeat constructor; by vm_compute).
  done.
Qed.

Lemma standardize_phone_number_digits (s out : pystr) :
  standardize_phone_number is_digit (Some s) = Some out →
  ∃ a b c, length a = 3%nat ∧ length b = 3%nat ∧ length c = 4%nat ∧
    Forall (λ c, is_digit c = true) (a ++ b ++ c) ∧
    findall_digits is_digit s = a ++ b ++ c ∧
    out = of_string "(" ++ a ++ of_string ") " ++ b ++ of_string "-" ++ c.
Proof.
  unfold standardize_phone_number. intros H.
  pose proof (findall_digits_are_digits s) as Hd.
  destruct (findall_digits is_digit s)
    as [|d0 [|d1 [|d2 [|d3 [|d4 [|d5 [|d6 [|d7 [|d8 [|d9 [|]]]]]]]]]]];
    try done.
  injection H as <-.
  by exists [d0; d1; d2], [d3; d4; d5], [d6; d7; d8; d9].
Qed.

Lemma standardize_phone_number_layout (a b c : pystr) :
  length a = 3%nat → length b = 3%nat → length c = 4%nat →
  Forall (λ c, is_digit c = true) (a ++ b ++ c) →
  standardize_phone_number is_digit
    (Some (of_string "(" ++ a ++ of_string ") " ++ b ++ of_string "-" ++ c)) =
    Some (of_string "(" ++ a ++ of_string ") " ++ b ++ of_string "-" ++ c).
Proof.
  intros La Lb Lc Hd.
  apply Forall_app in Hd as [Ha Hd]. apply Forall_app in Hd as [Hb Hc].
  unfold standardize_phone_number. rewrite findall_digits_layout by done.
  destruct a as [|a0 [|a1 [|a2 [|]]]]; try done.
  destruct b as [|b0 [|b1 [|b2 [|]]]]; try done.
  destruct c as [|c0 [|c1 [|c2 [|c3 [|]]]]]; done.
Qed.

(** X1. [standardize_phone_number] returns a value exactly for a [str] with ten
    digits; the value has fourteen characters and the ten digits of the
    cell, in their order. *)
Theorem standardize_phone_number_keeps_digits (phone : option pystr) :
  (is_Some (standardize_phone_number is_digit phone) ↔
     ∃ s, phone = Some s ∧ length (findall_digits is_digit s) = 10%nat) ∧
  ∀ s out, phone = Some s →
    standardize_phone_number is_digit phone = Some out →
    length out = 14%nat ∧
    findall_digits is_digit out = findall_digits is_digit s.
Proof.
  split; [split|].
  - intros [out Hout]. destruct phone as [s|]; [|done]. exists s.
    split; [done|].
    apply standardize_phone_number_digits in Hout
      as (a & b & c & La & Lb & Lc & _ & -> & _).
    rewrite !length_app. lia.
  - intros (s & -> & Hlen). unfold standardize_phone_number.
    destruct (findall_digits is_digit s)
      as [|d0 [|d1 [|d2 [|d3 [|d4 [|d5 [|d6 [|d7 [|d8 [|d9 [|]]]]]]]]]]];
      try done.
  - intros s out -> Hout.
    apply standardize_phone_number_digits in Hout
      as (a & b & c & La & Lb & Lc & Hd & -> & ->).
    apply Forall_app in Hd as [Ha Hd]. apply Forall_app in Hd as [Hb Hc].
    split.
    + rewrite !length_app, La, Lb, Lc. done.
    + by rewrite findall_digits_layout.
Qed.

(** X2. A standardized number is left as it is by a second pass. *)
Theorem standardize_phone_number_idempotent (phone : option pystr) (out : pystr) :
  standardize_phone_number is_digit phone = Some out →
  standardize_phone_number is_digit (Some out) = Some out.
Proof.
  destruct phone as [s|]; [|done]. intros Hout.
  apply standardize_phone_number_digits in Hout
    as (a & b & c & La & Lb & Lc & Hd & _ & ->).
  by apply standardize_phone_number_layout.
Qed.
End PhoneNumbers.

Section Contacts.
Variable is_digit : N → bool.

Hypothesis ascii_digits :
  ∀ c, (c < 128)%N → is_digit c = true ↔ (48 ≤ c ≤ 57)%N.

Lemma decimal_digit_is_digit (d : N) : (d < 10)%N → is_digit (48 + d) = true.
Proof. intros Hd. apply ascii_digits; lia. Qed.

(** The numbers drawn by [generate_random_phone] come out laid out. *)
Lemma generate_random_phone_layout (area central line : N) :
  (201 ≤ area ≤ 999)%N → (100 ≤ central ≤ 999)%N → (1000 ≤ line ≤ 9999)%N →
  ∃ a b c, length a = 3%nat ∧ length b = 3%nat ∧ length c = 4%nat ∧
    Forall (λ c, is_digit c = true) (a ++ b ++ c) ∧
    generate_random_phone area central line =
      of_string "(" ++ a ++ of_string ") " ++ b ++ of_string "-" ++ c.
Proof.
  intros Ha Hc Hl. unfold generate_random_phone, format_0d.
  rewrite (decimal_3 area), (decimal_3 central), (decimal_4 line) by lia.
  exists [48 + area / 100; 48 + area / 10 mod 10; 48 + area mod 10]%N,
    [48 + central / 100; 48 + central / 10 mod 10; 48 + central mod 10]%N,
    [48 + line / 1000; 48 + line / 100 mod 10; 48 + line / 10 mod 10;
     48 + line mod 10]%N.
  repeat split; try done. simpl.
  rewrite !Forall_cons, Forall_nil.
  repeat split; apply decimal_digit_is_digit;
    first [by apply N.mod_lt | zify; Z.div_mod_to_equations; lia].
Qed.

(** X3. A generated number is in the standard form: standardizing it returns
    it. *)
Theorem generate_random_phone_standard (area central line : N) :
  (201 ≤ area ≤ 999)%N → (100 ≤ central ≤ 999)%N → (1000 ≤ line ≤ 9999)%N →
  standardize_phone_number is_digit
    (Some (generate_random_phone area central line)) =
    Some (generate_random_phone area central line).
Proof.
  intros Ha Hc Hl.
  destruct (generate_random_phone_layout area central line Ha Hc Hl)
    as (a & b & c & La & Lb & Lc & Hd & ->).
  by apply standardize_phone_number_layout.
Qed.

(** X4. After the two passes of [clean_data] every contact is a number in the
    standard form, whatever the cell held: fourteen characters with ten
    digits, which a further pass returns as they are. *)
Theorem clean_contact_standard (area central line : N)
    (contact : option pystr) :
  (201 ≤ area ≤ 999)%N → (100 ≤ central ≤ 999)%N → (1000 ≤ line ≤ 9999)%N →
  let cleaned := clean_contact is_digit area central line contact in
  standardize_phone_number is_digit (Some cleaned) = Some cleaned ∧
  length cleaned = 14%nat ∧
  length (findall_digits is_digit cleaned) = 10%nat.
Proof.
  intros Ha Hc Hl. unfold clean_contact.
  assert (Hlay : ∃ a b c, length a = 3%nat ∧ length b = 3%nat ∧
            length c = 4%nat ∧ Forall (λ c, is_digit c = true) (a ++ b ++ c) ∧
            match standardize_phone_number is_digit contact with
            | Some s => s
            | None => generate_random_phone area central line
            end = of_string "(" ++ a ++ of_string ") " ++ b ++
                  of_string "-" ++ c).
  { destruct (standardize_phone_number is_digit contact) as [s|] eqn:Hs.
    - destruct contact as [raw|]; [|done].
      apply (standardize_phone_number_digits is_digit) in Hs
        as (a & b & c & La & Lb & Lc & Hd & _ & ->).
      by exists a, b, c.
    - by apply generate_random_phone_layout. }
  destruct Hlay as (a & b & c & La & Lb & Lc & Hd & ->). cbv zeta.
  split; [by apply standardize_phone_number_layout|].
  apply Forall_app in Hd as [Hda Hd]. apply Forall_app in Hd as [Hdb Hdc].
  rewrite (findall_digits_layout is_digit ascii_digits) by done.
  rewrite !length_app, La, Lb, Lc. done.
Qed.

(** X5. The link [make_clickable] builds for a standardized number dials the
    ten digits of the cell it was standardized from. *)
Theorem make_clickable_dials_digits (s out : pystr) :
  standardize_phone_number is_digit (Some s) = Some out →
  make_clickable is_digit (Some out) =
    of_string "[" ++ out ++ of_string "](tel:" ++
    findall_digits is_digit s ++ of_string ")".
Proof.
  intros Hout.
  apply (standardize_phone_number_digits is_digit) in Hout
    as (a & b & c & La & Lb & Lc & Hd & Hs & ->).
  apply Forall_app in Hd as [Hda Hd]. apply Forall_app in Hd as [Hdb Hdc].
  unfold make_clickable.
  rewrite (findall_digits_layout is_digit ascii_digits) by done.
  by rewrite Hs.
Qed.
End Contacts.

Section Pincode.
Variable is_digit : N → bool.

Hypothesis ascii_digits :
  ∀ c, (c < 128)%N → is_digit c = true ↔ (48 ≤ c ≤ 57)%N.

Lemma five_digits_at_end_spec (s p : pystr) :
  five_digits_at_end is_digit s = Some p ↔
  length p = 5%nat ∧ Forall (λ c, is_digit c = true) p ∧ ∃ pre, s = pre ++ p.
Proof.
  unfold five_digits_at_end. split.
  - destruct (decide _) as [[Hl Hd]|]; [|done]. intros [= <-].
    split; [done|]. split; [done|].
    exists (take (length s - 5) s). by rewrite take_drop.
  - intros (Hl & Hd & pre & ->).
    rewrite drop_app_length' by (rewrite length_app; lia).
    by rewrite decide_True.
Qed.

Lemma newline_is_no_digit : is_digit 10 ≠ true.
Proof. intros H. apply ascii_digits in H; lia. Qed.

(** X6. [extract_pincode] returns the last five characters of an address when
    they are five digits, a newline that ends the address set aside, and
    nothing in every other case. The digits need not be a whole number: of
    six digits at the end the last five are returned. *)
Theorem extract_pincode_last_five (s p : pystr) :
  extract_pincode is_digit (Some s) = Some p ↔
  length p = 5%nat ∧ Forall (λ c, is_digit c = true) p ∧
  ∃ pre, s = pre ++ p ∨ s = pre ++ p ++ [10%N].
Proof.
  unfold extract_pincode.
  destruct (decide (last s = Some 10%N)) as [Hnl|Hnl].
  - apply last_Some in Hnl as [s' ->]. rewrite removelast_last.
    assert (Hend : five_digits_at_end is_digit (s' ++ [10%N]) = None).
    { destruct (five_digits_at_end is_digit (s' ++ [10%N])) as [q|] eqn:E;
        [|done].
      apply five_digits_at_end_spec in E as (Hl & Hd & pre & Hs).
      destruct q as [|q0 q] using rev_ind; [done|].
      rewrite app_assoc in Hs. apply app_inj_tail in Hs as [_ <-].
      apply Forall_app in Hd as [_ Hd].
      apply Forall_cons in Hd as [Hd _]. by apply newline_is_no_digit in Hd. }
    destruct (five_digits_at_end is_digit s') as [m|] eqn:E.
    + apply five_digits_at_end_spec in E as (Hl & Hd & pre & ->). split.
      * intros [= <-]. split; [done|]. split; [done|].
        exists pre. right. by rewrite app_assoc.
      * intros (Hlp & Hdp & pre' & [Hs|Hs]).
        -- destruct p as [|p0 p] using rev_ind; [done|].
           rewrite app_assoc in Hs. apply app_inj_tail in Hs as [_ <-].
           apply Forall_app in Hdp as [_ Hdp].
           apply Forall_cons in Hdp as [Hdp _].
           by apply newline_is_no_digit in Hdp.
        -- rewrite !app_assoc in Hs. apply app_inj_tail in Hs as [Hs _].
           f_equal. apply (app_inj_2 pre pre' m p) in Hs as [_ ->]; [done|].
           lia.
    + rewrite Hend. split; [done|].
      intros (Hlp & Hdp & pre' & [Hs|Hs]).
      * destruct p as [|p0 p] using rev_ind; [done|].
        rewrite app_assoc in Hs. apply app_inj_tail in Hs as [_ <-].
        apply Forall_app in Hdp as [_ Hdp].
        apply Forall_cons in Hdp as [Hdp _].
        by apply newline_is_no_digit in Hdp.
      * rewrite !app_assoc in Hs. apply app_inj_tail in Hs as [-> _].
        assert (five_digits_at_end is_digit (pre' ++ p) = Some p)
          by (apply five_digits_at_end_spec; eauto).
        congruence.
  - rewrite five_digits_at_end_spec. split.
    + intros (Hl & Hd & pre & ->). split; [done|]. split; [done|].
      exists pre. by left.
    + intros (Hl & Hd & pre & [->| ->]); [by eauto|].
      destruct Hnl. by rewrite !app_assoc, last_snoc.
Qed.
End Pincode.

(** * Rows with a primary key *)

Lemma drop_duplicates_seen_elem {A} (seen : gset Z) (rows : list (Z * A)) :
  ∀ k a, (k, a) ∈ drop_duplicates_seen seen rows ↔
         (k ∉ seen) ∧ head (filter (λ r, r.1 = k) rows) = Some (k, a).
Proof.
  intros k a. revert seen. induction rows as [|[k0 a0] rows IH]; intros seen; simpl.
  - split; [by intros ?%elem_of_nil|]. by intros [_ ?].
  - destruct (decide (k0 ∈ seen)) as [Hin|Hin].
    + rewrite IH. destruct (decide (k0 = k)) as [->|Hne].
      * split; [by intros [? _]|by intros [? _]].
      * by rewrite filter_cons_False.
    + rewrite elem_of_cons, IH. destruct (decide (k0 = k)) as [->|Hne].
      * rewrite filter_cons_True by done. simpl. split.
        -- intros [[= ->]|[Hk _]]; [done|].
           destruct Hk. apply elem_of_union_l. by apply elem_of_singleton.
        -- intros [_ [= ->]]. by left.
      * rewrite filter_cons_False by done. split.
        -- intros [[= ? ?]|[Hk Hh]]; [done|]. split; [|done].
           intros Hs. apply Hk. by apply elem_of_union_r.
        -- intros [Hk Hh]. right. split; [|done].
           intros [Hs|Hs]%elem_of_union; [|done].
           apply elem_of_singleton in Hs. congruence.
Qed.

Lemma drop_duplicates_seen_NoDup {A} (seen : gset Z) (rows : list (Z * A)) :
  NoDup (drop_duplicates_seen seen rows).*1.
Proof.
  revert seen. induction rows as [|[k0 a0] rows IH]; intros seen; simpl.
  - constructor.
  - destruct (decide (k0 ∈ seen)); [done|]. simpl. constructor; [|done].
    intros [[k a] [Hk Hin]]%list_elem_of_fmap. simpl in Hk. subst k.
    apply drop_duplicates_seen_elem in Hin as [Hin _].
    apply Hin, elem_of_union_l. by apply elem_of_singleton.
Qed.

Lemma drop_duplicates_seen_sublist {A} (seen : gset Z) (rows : list (Z * A)) :
  sublist (drop_duplicates_seen seen rows) rows.
Proof.
  revert seen. induction rows as [|[k0 a0] rows IH]; intros seen; simpl.
  - constructor.
  - destruct (decide (k0 ∈ seen)); [by apply sublist_cons|by apply sublist_skip].
Qed.

(** X7. [drop_duplicates] keeps, for every key of the frame, the first row with
    that key and no other: the keys of the result are pairwise distinct, and
    the rows keep their order. *)
Theorem drop_duplicates_keeps_first {A} (rows : list (Z * A)) :
  NoDup (drop_duplicates rows).*1 ∧
  sublist (drop_duplicates rows) rows ∧
  ∀ k a, (k, a) ∈ drop_duplicates rows ↔
         head (filter (λ r, r.1 = k) rows) = Some (k, a).
Proof.
  split; [apply drop_duplicates_seen_NoDup|].
  split; [apply drop_duplicates_seen_sublist|].
  intros k a. unfold drop_duplicates. rewrite drop_duplicates_seen_elem.
  split; [by intros [_ ?]|]. intros H. split; [|done].
  apply not_elem_of_empty.
Qed.

(** X8. A frame without duplicate keys is left as it is, so a second pass
    changes nothing. *)
Theorem drop_duplicates_idempotent {A} (rows : list (Z * A)) :
  drop_duplicates (drop_duplicates rows) = drop_duplicates rows.
Proof.
  assert (Hid : ∀ (l : list (Z * A)) (seen : gset Z),
            NoDup l.*1 → (∀ k, k ∈ l.*1 → k ∉ seen) →
            drop_duplicates_seen seen l = l).
  { induction l as [|[k0 a0] l IH]; intros seen Hnd Hseen; [done|].
    simpl in *. apply NoDup_cons in Hnd as [Hk0 Hnd].
    rewrite decide_False by (apply Hseen; left).
    f_equal. apply IH; [done|]. intros k Hk.
    assert (k ≠ k0) by (intros ->; done).
    assert (k ∉ seen) by (apply Hseen; by right).
    intros [Hs|Hs]%elem_of_union; [|done].
    by apply elem_of_singleton in Hs. }
  apply Hid; [apply drop_duplicates_seen_NoDup|].
  intros k _. apply not_elem_of_empty.
Qed.

(** * Pages of the listing table *)

Lemma total_pages_bounds (total_records : Z) :
  0 ≤ total_records →
  total_records ≤ 25 * total_pages total_records < total_records + 25.
Proof.
  intros Hn. unfold total_pages, PAGE_SIZE.
  destruct (decide _); Z.div_mod_to_equations; lia.
Qed.

(** X9. [total_pages] is the number of records over the page size, rounded up:
    the pages hold every record, and the last one is not empty. *)
Theorem total_pages_rounds_up (total_records : Z) :
  0 ≤ total_records →
  total_records ≤ PAGE_SIZE * total_pages total_records < total_records + PAGE_SIZE.
Proof.
  intros Hn. unfold total_pages, PAGE_SIZE.
  destruct (decide (0 < total_records `mod` 25)) as [Hrem|Hrem];
    Z.div_mod_to_equations; lia.
Qed.

Lemma total_pages_rounds_up_witness :
  26 ≤ PAGE_SIZE * total_pages 26 < 26 + PAGE_SIZE.
Proof. apply (total_pages_rounds_up 26). lia. Defined.

Lemma page_within_total (page_number total_records : Z) :
  0 ≤ total_records → 1 ≤ page_number →
  page_number ≤ total_pages total_records ↔
  page_offset page_number < total_records.
Proof.
  intros Hn Hp. pose proof (total_pages_bounds total_records Hn) as Hc.
  unfold page_offset, PAGE_SIZE in *. split; lia.
Qed.

Lemma current_listings_nil {A} (page_number : Z) (rows : list A) :
  current_listings page_number rows = [] ↔
  (length rows ≤ Z.to_nat (page_offset page_number))%nat.
Proof.
  unfold current_listings, PAGE_SIZE. split.
  - intros H. apply (f_equal length) in H.
    rewrite length_take, length_drop in H.
    change (length (@nil A)) with 0%nat in H. lia.
  - intros H. by rewrite drop_ge.
Qed.

Lemma current_listings_in_range {A} (page_number : Z) (rows : list A) :
  1 ≤ page_number →
  current_listings page_number rows ≠ [] ↔
  page_number ≤ total_pages (Z.of_nat (length rows)).
Proof.
  intros Hp. rewrite current_listings_nil.
  rewrite (page_within_total page_number (Z.of_nat (length rows))) by lia.
  unfold page_offset, PAGE_SIZE. lia.
Qed.

(** X10. With the count of the rows as [total_records], a page from 1 on shows
    rows exactly when its number is at most [total_pages]. *)
Theorem page_shows_rows_iff_in_range {A} (page_number : Z) (rows : list A) :
  1 ≤ page_number →
  current_listings page_number rows ≠ [] ↔
  page_number ≤ total_pages (Z.of_nat (length rows)).
Proof.
  intros Hp.
  pose proof (total_pages_bounds (Z.of_nat (length rows)) ltac:(lia)) as Hc.
  rewrite current_listings_nil. unfold page_offset, PAGE_SIZE.
  split; intros H; lia.
Qed.

Lemma page_shows_rows_iff_in_range_witness :
  current_listings 2 (seqZ 0 26) ≠ [] ↔
  2 ≤ total_pages (Z.of_nat (length (seqZ 0 26))).
Proof. apply (page_shows_rows_iff_in_range 2 (seqZ 0 26)). lia. Defined.

(** X11. The buttons keep the page number between 1 and [total_pages]. *)
Theorem click_stays_in_range {A} (b : PageButton)
    (page_number total_records : Z) (rows : list A) :
  1 ≤ page_number ≤ total_pages total_records →
  1 ≤ click b page_number total_records rows ≤ total_pages total_records.
Proof.
  intros Hp. unfold click, pagination.
  destruct (current_listings page_number rows); [by destruct b|].
  destruct b; repeat case_bool_decide; lia.
Qed.

Lemma click_stays_in_range_witness :
  1 ≤ click Next 1 26 (seqZ 0 26) ≤ total_pages 26.
Proof. apply (click_stays_in_range Next 1 26 (seqZ 0 26)). by vm_compute. Defined.

(** X12. A page number beyond the last page, as left behind when rows of the
    last page are deleted or a filter is narrowed, shows no rows and draws
    no button: no click changes it. *)
Theorem page_beyond_last_is_stuck {A} (b : PageButton) (page_number : Z)
    (rows : list A) :
  1 ≤ page_number →
  total_pages (Z.of_nat (length rows)) < page_number →
  pagination page_number (Z.of_nat (length rows)) rows = NoListings ∧
  click b page_number (Z.of_nat (length rows)) rows = page_number.
Proof.
  intros Hp Hlast.
  assert (Hnil : current_listings page_number rows = []).
  { destruct (current_listings page_number rows) eqn:E; [done|].
    assert (current_listings page_number rows ≠ []) as Hne by by rewrite E.
    apply current_listings_in_range in Hne; lia. }
  unfold click, pagination. rewrite Hnil. by destruct b.
Qed.

Lemma page_beyond_last_is_stuck_witness :
  pagination 2 (Z.of_nat (length (seqZ 0 25))) (seqZ 0 25) = NoListings ∧
  click Previous 2 (Z.of_nat (length (seqZ 0 25))) (seqZ 0 25) = 2.
Proof.
  apply (page_beyond_last_is_stuck Previous 2 (seqZ 0 25)); by vm_compute.
Defined.

Lemma take_pages {A} (rows : list A) (k : nat) :
  concat ((λ i : nat, take 25 (drop (i * 25) rows)) <$> seq 0 k) =
    take (k * 25) rows.
Proof.
  induction k as [|k IH]; [done|].
  rewrite seq_S, fmap_app, concat_app, IH. simpl. rewrite app_nil_r.
  rewrite <- (take_drop (k * 25) (take (25 + k * 25) rows)) at 1.
  rewrite take_take, Nat.min_l by lia.
  f_equal. rewrite skipn_firstn_comm. f_equal. lia.
Qed.

(** X13. The pages 1 to [total_pages], one after the other, are the rows of the
    query: every row is on one page, in the order of the query. *)
Theorem pages_cover_rows {A} (rows : list A) :
  concat ((λ p, current_listings p rows) <$>
          seqZ 1 (total_pages (Z.of_nat (length rows)))) = rows.
Proof.
  pose proof (total_pages_bounds (Z.of_nat (length rows)) ltac:(lia)) as Hc.
  assert (Hk : 0 ≤ total_pages (Z.of_nat (length rows))) by lia.
  unfold seqZ. rewrite <- list_fmap_compose.
  rewrite (list_fmap_ext _ (λ i : nat, take 25 (drop (i * 25) rows))).
  - rewrite take_pages. apply take_ge. lia.
  - intros i x _. simpl. unfold current_listings, page_offset, PAGE_SIZE.
    f_equal. f_equal. lia.
Qed.

(** * Create, Update and Delete, case by case *)

Lemma random_choice_nonempty (draw : nat) (l : list Z) :
  l ≠ [] → is_Some (random_choice draw l).
Proof.
  intros Hl. unfold random_choice. apply lookup_lt_is_Some.
  apply Nat.mod_upper_bound. by destruct l.
Qed.

(** The database a valid form leaves. *)
Lemma add_listing_valid engine today now draw f db name pid p :
  selected_provider_name f = Some name →
  name ≠ EmptyString →
  food_name f ≠ EmptyString →
  today ≤ expiry_date f →
  provider_map f !! name = Some pid →
  Providers db !! pid = Some p →
  0 < quantity f →
  add_listing engine today now draw f db =
    let fid := next_rowid (Food_Listings db) in
    let row := Listing.mk (food_name f) (quantity f) (expiry_date f) pid
                 (Some (Provider.Type_ p)) (Some (Provider.City p))
                 (Some (food_type f)) (Some (meal_type f)) in
    match random_choice draw (receiver_ids db) with
    | Some rid =>
        (mkDB (Providers db) (Receivers db)
              (<[fid := row]> (Food_Listings db))
              (<[next_rowid (Claims db) := Claim.mk fid rid Pending now]>
                 (Claims db)),
         Some AddedWithPendingClaim)
    | None =>
        (mkDB (Providers db) (Receivers db)
              (<[fid := row]> (Food_Listings db)) (Claims db),
         Some AddedNoReceivers)
    end.
Proof.
  intros Hsel Hname Hfood Hexp Hmap Hprov Hqty. unfold add_listing.
  rewrite Hsel. rewrite !decide_False by (done || lia).
  unfold engine_begin, add_listing_tx, tx_bind, tx_from_option, tx_query,
    tx_ret, tx_raise.
  rewrite Hmap, Hprov. unfold insert_food_listing. simpl.
  rewrite decide_True by done.
  rewrite decide_False by (intros [_ ?]; congruence).
  unfold receiver_ids. simpl. fold (receiver_ids db).
  destruct (receiver_ids db) as [|r rs] eqn:Hids; [done|].
  destruct (random_choice_nonempty draw (r :: rs) ltac:(done)) as [rid Hch].
  rewrite Hch.
  assert (Hrid : is_Some (Receivers db !! rid)).
  { apply receiver_ids_elem. rewrite Hids. by eapply random_choice_elem. }
  unfold insert_claim. simpl. rewrite decide_False; [done|].
  intros [_ [Hl|Hr]].
  - by rewrite lookup_insert_eq in Hl.
  - rewrite Hr in Hrid. by destruct Hrid.
Qed.

(** What a successful Create went through. *)
Lemma add_listing_success_inv engine today now draw f db db' m :
  add_listing engine today now draw f db = (db', Some m) →
  m = AddedWithPendingClaim ∨ m = AddedNoReceivers →
  ∃ name pid p,
    selected_provider_name f = Some name ∧ name ≠ EmptyString ∧
    food_name f ≠ EmptyString ∧ today ≤ expiry_date f ∧
    provider_map f !! name = Some pid ∧ Providers db !! pid = Some p ∧
    0 < quantity f.
Proof.
  intros Hrun Hok. unfold add_listing in Hrun.
  destruct (selected_provider_name f) as [name|];
    [|destruct Hok; congruence].
  repeat (destruct (decide _); [destruct Hok; congruence|]).
  unfold engine_begin, add_listing_tx, tx_bind, tx_from_option, tx_query,
    tx_ret, tx_raise in Hrun.
  destruct (provider_map f !! name) as [pid|] eqn:Hmap;
    [|destruct Hok; congruence].
  destruct (Providers db !! pid) as [p|] eqn:Hprov;
    [|destruct Hok; congruence].
  unfold insert_food_listing in Hrun.
  destruct (decide (0 < _)) as [Hq|];
    [|destruct Hok; simpl in Hrun; congruence].
  exists name, pid, p. repeat split; try done. lia.
Qed.

(** X14. A listing stored by Create names a stored provider and carries that
    provider's Type and City; it has the food name, quantity and expiry date
    of the form, the name is not empty, the quantity is positive and the
    expiry date is not in the past. *)
Theorem create_copies_provider_fields engine today now draw f db db' m :
  add_listing engine today now draw f db = (db', Some m) →
  m = AddedWithPendingClaim ∨ m = AddedNoReceivers →
  ∃ name pid p,
    selected_provider_name f = Some name ∧
    provider_map f !! name = Some pid ∧
    Providers db !! pid = Some p ∧
    Food_Listings db' !! next_rowid (Food_Listings db) =
      Some (Listing.mk (food_name f) (quantity f) (expiry_date f) pid
              (Some (Provider.Type_ p)) (Some (Provider.City p))
              (Some (food_type f)) (Some (meal_type f))) ∧
    food_name f ≠ EmptyString ∧ 0 < quantity f ∧ today ≤ expiry_date f.
Proof.
  intros Hrun Hok.
  destruct (add_listing_success_inv _ _ _ _ _ _ _ _ Hrun Hok)
    as (name & pid & p & Hsel & Hname & Hfood & Hexp & Hmap & Hprov & Hqty).
  exists name, pid, p. repeat split; try done.
  rewrite (add_listing_valid engine today now draw f db name pid p) in Hrun
    by done.
  cbv zeta in Hrun.
  destruct (random_choice draw (receiver_ids db));
    injection Hrun as <- _; simpl; apply lookup_insert_eq.
Qed.

Lemma create_copies_provider_fields_witness :
  ∃ name pid p,
    selected_provider_name soup_form = Some name ∧
    provider_map soup_form !! name = Some pid ∧
    Providers sample_db !! pid = Some p ∧
    Food_Listings (add_listing get_engine 100 7 1 soup_form sample_db).1
      !! next_rowid (Food_Listings sample_db) =
      Some (Listing.mk (food_name soup_form) (quantity soup_form)
              (expiry_date soup_form) pid
              (Some (Provider.Type_ p)) (Some (Provider.City p))
              (Some (food_type soup_form)) (Some (meal_type soup_form))) ∧
    food_name soup_form ≠ EmptyString ∧ 0 < quantity soup_form ∧
    100 ≤ expiry_date soup_form.
Proof.
  apply (create_copies_provider_fields get_engine 100 7 1%nat soup_form
           sample_db _ AddedWithPendingClaim).
  - by vm_compute.
  - by left.
Defined.

(** X15. Create is all or nothing: whenever it reports anything but one of its
    two successes, the database is as it was; and it always reports. *)
Theorem create_is_atomic engine today now draw f db :
  ∃ m, (add_listing engine today now draw f db).2 = Some m ∧
       (m ≠ AddedWithPendingClaim → m ≠ AddedNoReceivers →
        (add_listing engine today now draw f db).1 = db).
Proof.
  unfold add_listing.
  destruct (selected_provider_name f) as [name|]; [|by eexists].
  repeat (destruct (decide _); [by eexists|]).
  unfold engine_begin.
  destruct (add_listing_tx engine now draw f name db) as [e|[m db1]] eqn:Etx.
  - by eexists.
  - exists m. split; [done|]. intros Hm1 Hm2. exfalso.
    unfold add_listing_tx, tx_bind, tx_from_option, tx_query, tx_ret,
      tx_raise in Etx.
    destruct (provider_map f !! name); [|done].
    destruct (Providers db !! _); [|done].
    destruct (insert_food_listing _ _ db) as [|[fid db2]]; [done|].
    destruct (receiver_ids db2); [by injection Etx as <- _|].
    destruct (random_choice _ _); [|done].
    destruct (insert_claim _ _ _ _ db2) as [|[u db3]]; [done|].
    by injection Etx as <- _.
Qed.


(** X17. Delete, on the engine of the application, removes the listing it names
    and nothing else: every claim on that listing stays stored, with its
    status. *)
Theorem delete_keeps_claims food_id db :
  1 ≤ food_id →
  let db' := (delete_listing get_engine food_id db).1 in
  Food_Listings db' = delete food_id (Food_Listings db) ∧
  Claims db' = Claims db ∧
  Providers db' = Providers db ∧ Receivers db' = Receivers db.
Proof.
  intros Hid. unfold delete_listing.
  rewrite decide_False by lia.
  destruct (Food_Listings db !! food_id) as [l|] eqn:El.
  - unfold execute_mutation, engine_begin, tx_execute,
      delete_food_listing_where, delete_food_listing.
    simpl. by rewrite El.
  - simpl. by rewrite delete_id.
Qed.

Lemma delete_keeps_claims_witness :
  let db' := (delete_listing get_engine 10 sample_db).1 in
  Food_Listings db' = delete 10 (Food_Listings sample_db) ∧
  Claims db' = Claims sample_db ∧
  Providers db' = Providers sample_db ∧ Receivers db' = Receivers sample_db.
Proof. apply (delete_keeps_claims 10 sample_db). lia. Defined.

(** * What no operation does *)

Lemma delete_food_listing_frame fk fid db :
  Providers (delete_food_listing fk fid db) = Providers db ∧
  Receivers (delete_food_listing fk fid db) = Receivers db.
Proof. unfold delete_food_listing. by destruct (Food_Listings db !! fid). Qed.

Lemma delete_food_listing_claim fk fid db k c :
  Claims (delete_food_listing fk fid db) !! k = Some c →
  Claims db !! k = Some c.
Proof.
  unfold delete_food_listing. destruct (Food_Listings db !! fid); [|done].
  destruct fk; [|done]. simpl. by intros [? _]%map_lookup_filter_Some.
Qed.

(** The shape of every step: the provider and receiver tables are kept, and
    a claim stored afterwards under an id in use before is the claim that
    was there, but for a status that moved out of Pending. *)
Lemma run_frame engine today op db :
  let db' := (run engine today op db).1 in
  Providers db' = Providers db ∧ Receivers db' = Receivers db ∧
  ∀ cid c c', Claims db !! cid = Some c → Claims db' !! cid = Some c' →
    Claim.Food_ID c' = Claim.Food_ID c ∧
    Claim.Receiver_ID c' = Claim.Receiver_ID c ∧
    Claim.Timestamp c' = Claim.Timestamp c ∧
    (Claim.Status c ≠ Pending → c' = c).
Proof.
  assert (Hsame : ∀ (m : gmap Z Claim.t) cid c c',
            m !! cid = Some c → m !! cid = Some c' →
            Claim.Food_ID c' = Claim.Food_ID c ∧
            Claim.Receiver_ID c' = Claim.Receiver_ID c ∧
            Claim.Timestamp c' = Claim.Timestamp c ∧
            (Claim.Status c ≠ Pending → c' = c)).
  { intros m cid c c' H1 H2. by simplify_eq. }
  assert (Hsettle : ∀ s k d cid c c',
            is_Some (claims_df Pending d !! k) →
            Claims d !! cid = Some c →
            Claims (update_claim_status s k d) !! cid = Some c' →
            Claim.Food_ID c' = Claim.Food_ID c ∧
            Claim.Receiver_ID c' = Claim.Receiver_ID c ∧
            Claim.Timestamp c' = Claim.Timestamp c ∧
            (Claim.Status c ≠ Pending → c' = c)).
  { intros s k d cid c c' Hin Hc Hc'. simpl in Hc'.
    apply claims_df_lookup in Hin as (ck & Hck & Hs & _).
    apply lookup_alter_Some in Hc' as [(-> & c0 & Hc0 & ->)|[_ Hc']].
    - simplify_eq. by repeat split.
    - by simplify_eq. }
  destruct op as [now draw f|fid qty exp|fid|cid0|cid0]; simpl.
  - unfold add_listing.
    destruct (selected_provider_name f) as [name|]; [|by eauto].
    repeat (destruct (decide _); [by eauto|]).
    unfold engine_begin, add_listing_tx, tx_bind, tx_from_option, tx_query,
      tx_ret, tx_raise.
    destruct (provider_map f !! name) as [pid|]; [|by eauto].
    destruct (Providers db !! pid) as [p|]; [|by eauto].
    unfold insert_food_listing.
    destruct (decide (0 < _)); [|by eauto].
    destruct (decide (_ ∧ _)); [by eauto|]. simpl.
    destruct (receiver_ids _) as [|r rs]; [by eauto|].
    destruct (random_choice draw (r :: rs)) as [rid|]; [|by eauto].
    unfold insert_claim.
    destruct (decide (_ ∧ _)); [by eauto|]. simpl.
    split; [done|]. split; [done|]. intros cid c c' Hc Hc'.
    rewrite lookup_insert_ne in Hc'; [by eauto|].
    intros <-. by rewrite next_rowid_fresh in Hc.
  - unfold update_listing.
    destruct (decide _); [by eauto|].
    destruct (Food_Listings db !! fid) as [l|] eqn:El; [|by eauto].
    destruct (decide _); [by eauto|].
    unfold execute_mutation, engine_begin, update_food_listing. rewrite El.
    destruct (decide _); by eauto.
  - unfold delete_listing.
    destruct (decide _); [by eauto|].
    destruct (Food_Listings db !! fid) as [l|] eqn:El; [|by eauto].
    unfold execute_mutation, engine_begin, tx_execute,
      delete_food_listing_where.
    cbn [bound_integer fst].
    destruct (delete_food_listing_frame (foreign_keys engine) fid db)
      as [-> ->].
    split; [done|]. split; [done|]. intros cid c c' Hc Hc'.
    apply delete_food_listing_claim in Hc'. by eauto.
  - unfold mark_as_completed.
    destruct (decide _); [by eauto|].
    destruct (decide _) as [Hin|]; [|by eauto].
    unfold engine_begin, mark_as_completed_tx, tx_bind, tx_execute,
      tx_from_option.
    destruct (Claims db !! cid0) as [c0|]; simpl; [|by eauto].
    split; [done|]. split; [done|]. intros cid c c' Hc Hc'.
    by eapply (Hsettle Completed cid0 db).
  - unfold cancel_claim.
    destruct (decide _); [by eauto|].
    destruct (decide _) as [Hin|]; [|by eauto].
    unfold engine_begin, cancel_claim_tx, tx_bind, tx_execute, tx_query,
      tx_ret.
    destruct (food_info_df cid0 db) as [[fid exp]|];
      [destruct (decide _)|]; simpl.
    + split; [done|]. split; [done|]. intros cid c c' Hc Hc'.
      by eapply (Hsettle Cancelled cid0 db).
    + split; [done|]. split; [done|]. intros cid c c' Hc Hc'.
      by eapply (Hsettle Cancelled cid0 db).
    + split; [done|]. split; [done|]. intros cid c c' Hc Hc'.
      by eapply (Hsettle Cancelled cid0 db).
Qed.

(** On the engine of the application no step removes a claim. *)
Lemma run_keeps_claims engine today op db cid :
  foreign_keys engine = false →
  is_Some (Claims db !! cid) →
  is_Some (Claims (run engine today op db).1 !! cid).
Proof.
  intros Hfk [c Hc].
  assert (Hupd : ∀ s k, is_Some (Claims (update_claim_status s k db) !! cid)).
  { intros s k. simpl. destruct (decide (k = cid)) as [->|Hne].
    - rewrite lookup_alter_eq, Hc. by eexists.
    - rewrite lookup_alter_ne by done. by eexists. }
  destruct op as [now draw f|fid qty exp|fid|cid0|cid0]; simpl.
  - unfold add_listing.
    destruct (selected_provider_name f) as [name|]; [|by eauto].
    repeat (destruct (decide _); [by eauto|]).
    unfold engine_begin, add_listing_tx, tx_bind, tx_from_option, tx_query,
      tx_ret, tx_raise.
    destruct (provider_map f !! name) as [pid|]; [|by eauto].
    destruct (Providers db !! pid) as [p|]; [|by eauto].
    unfold insert_food_listing.
    destruct (decide (0 < _)); [|by eauto].
    destruct (decide (_ ∧ _)); [by eauto|]. simpl.
    destruct (receiver_ids _) as [|r rs]; [by eauto|].
    destruct (random_choice draw (r :: rs)) as [rid|]; [|by eauto].
    unfold insert_claim.
    destruct (decide (_ ∧ _)); [by eauto|]. simpl.
    rewrite lookup_insert_ne; [by eauto|].
    intros <-. by rewrite next_rowid_fresh in Hc.
  - unfold update_listing.
    destruct (decide _); [by eauto|].
    destruct (Food_Listings db !! fid) as [l|] eqn:El; [|by eauto].
    destruct (decide _); [by eauto|].
    unfold execute_mutation, engine_begin, update_food_listing. rewrite El.
    destruct (decide _); by eauto.
  - unfold delete_listing.
    destruct (decide _); [by eauto|].
    destruct (Food_Listings db !! fid) as [l|] eqn:El; [|by eauto].
    unfold execute_mutation, engine_begin, tx_execute,
      delete_food_listing_where.
    cbn [bound_integer fst].
    rewrite Hfk, delete_food_listing_unenforced. by eauto.
  - unfold mark_as_completed.
    destruct (decide _); [by eauto|].
    destruct (decide _) as [Hin|]; [|by eauto].
    unfold engine_begin, mark_as_completed_tx, tx_bind, tx_execute,
      tx_from_option.
    destruct (Claims db !! cid0) as [c0|]; simpl; [|by eauto].
    apply Hupd.
  - unfold cancel_claim.
    destruct (decide _); [by eauto|].
    destruct (decide _) as [Hin|]; [|by eauto].
    unfold engine_begin, cancel_claim_tx, tx_bind, tx_execute, tx_query,
      tx_ret.
    destruct (food_info_df cid0 db) as [[fid exp]|];
      [destruct (decide _)|]; simpl.
    + apply Hupd.
    + apply Hupd.
    + apply Hupd.
Qed.

(** X18. On the engine of the application a claim, once stored, stays stored in
    every state reached later, on the same listing id, for the same
    receiver, with the same timestamp; and a claim that is Completed or
    Cancelled is never changed again. *)
Theorem claims_are_never_reopened init db cid c :
  reachable get_engine init db →
  Claims init !! cid = Some c →
  ∃ c', Claims db !! cid = Some c' ∧
        Claim.Food_ID c' = Claim.Food_ID c ∧
        Claim.Receiver_ID c' = Claim.Receiver_ID c ∧
        Claim.Timestamp c' = Claim.Timestamp c ∧
        (Claim.Status c ≠ Pending → c' = c).
Proof.
  intros Hreach Hc. induction Hreach as [|today op db Hreach IH].
  - by exists c.
  - destruct IH as (c1 & Hc1 & Hf & Hr & Ht & Hs).
    destruct (run_keeps_claims get_engine today op db cid eq_refl
                ltac:(by eexists)) as [c2 Hc2].
    destruct (run_frame get_engine today op db) as (_ & _ & Hstep).
    destruct (Hstep cid c1 c2 Hc1 Hc2) as (Hf2 & Hr2 & Ht2 & Hs2).
    exists c2. repeat split; try congruence.
    intros Hne. rewrite <- (Hs Hne). apply Hs2. by rewrite (Hs Hne).
Qed.

Lemma claims_are_never_reopened_witness :
  ∃ c', Claims (run get_engine 106 (Cancel 3)
                  (run get_engine 100 (Complete 1) sample_db).1).1 !! 3 =
          Some c' ∧
        Claim.Food_ID c' = Claim.Food_ID (Claim.mk 7 1 Completed 0) ∧
        Claim.Receiver_ID c' = Claim.Receiver_ID (Claim.mk 7 1 Completed 0) ∧
        Claim.Timestamp c' = Claim.Timestamp (Claim.mk 7 1 Completed 0) ∧
        (Claim.Status (Claim.mk 7 1 Completed 0) ≠ Pending →
         c' = Claim.mk 7 1 Completed 0).
Proof.
  apply (claims_are_never_reopened sample_db).
  - apply reachable_run, reachable_run, reachable_init.
  - by vm_compute.
Defined.

(** X19. No operation writes to Providers or Receivers, whatever the engine. *)
Theorem providers_and_receivers_untouched engine init db :
  reachable engine init db →
  Providers db = Providers init ∧ Receivers db = Receivers init.
Proof.
  intros Hreach. induction Hreach as [|today op db Hreach [IHp IHr]]; [done|].
  destruct (run_frame engine today op db) as (Hp & Hr & _).
  split; congruence.
Qed.

Lemma providers_and_receivers_untouched_witness :
  Providers (run get_engine 100 (Create 7 1 soup_form) sample_db).1 =
    Providers sample_db ∧
  Receivers (run get_engine 100 (Create 7 1 soup_form) sample_db).1 =
    Receivers sample_db.
Proof.
  apply (providers_and_receivers_untouched get_engine sample_db).
  apply reachable_run, reachable_init.
Defined.

(** X20. The data model of the Manage Claims page is an invariant: from a
    database in which every claim has a positive id and a stored receiver,
    every reachable state is such a database, and every operation keeps it
    so, whatever the engine. *)
Theorem data_model_is_invariant engine init db :
  data_model init →
  reachable engine init db →
  data_model db ∧ ∀ today op, data_model (run engine today op db).1.
Proof.
  intros Hinit Hreach.
  assert (Hdb : data_model db) by by eapply reachable_data_model.
  split; [done|]. intros today op. by apply run_data_model.
Qed.

Lemma data_model_is_invariant_witness :
  data_model (run get_engine 100 (Create 7 1 soup_form) sample_db).1 ∧
  ∀ today op,
    data_model
      (run get_engine today op
         (run get_engine 100 (Create 7 1 soup_form) sample_db).1).1.
Proof.
  apply (data_model_is_invariant get_engine sample_db).
  - apply (bool_decide_unpack _). by vm_compute.
  - apply reachable_run, reachable_init.
Defined.

(** After Complete or Cancel was clicked for an id, that id is no Pending
    claim of the frame, whether the click was accepted or not. *)
Lemma not_pending_after_transition engine today op cid db :
  cid ≠ 0 → op = Complete cid ∨ op = Cancel cid →
  ¬ is_Some (claims_df Pending (run engine today op db).1 !! cid).
Proof.
  intros Hid Hop.
  assert (Hset : ∀ s, s ≠ Pending →
            ¬ is_Some (claims_df Pending (update_claim_status s cid db)
                         !! cid)).
  { intros s Hs (c' & Hc' & Hst & _)%claims_df_lookup. simpl in Hc'.
    rewrite lookup_alter_eq in Hc'.
    by destruct (Claims db !! cid); simplify_eq/=. }
  destruct Hop as [-> | ->]; simpl.
  - unfold mark_as_completed. rewrite decide_False by done.
    destruct (decide _) as [Hin|Hout]; [|done].
    unfold engine_begin, mark_as_completed_tx, tx_bind, tx_execute,
      tx_from_option.
    apply claims_df_lookup in Hin as (c & Hc & _). rewrite Hc. simpl.
    by apply (Hset Completed).
  - unfold cancel_claim. rewrite decide_False by done.
    destruct (decide _) as [Hin|Hout]; [|done].
    unfold engine_begin, cancel_claim_tx, tx_bind, tx_execute, tx_query,
      tx_ret.
    destruct (food_info_df cid db) as [[fid exp]|];
      [destruct (decide _)|]; simpl; by apply (Hset Cancelled).
Qed.

(** X21. Complete and Cancel are accepted at most once for an id: after either
    was clicked for it, whatever the outcome, a further click of either
    fails with "not a valid pending claim" and changes nothing. *)
Theorem second_transition_refused engine today today' first second cid db :
  1 ≤ cid →
  first = Complete cid ∨ first = Cancel cid →
  second = Complete cid ∨ second = Cancel cid →
  run engine today' second (run engine today first db).1 =
    ((run engine today first db).1, Some NotAValidPendingClaim).
Proof.
  intros Hid Hfirst Hsecond.
  pose proof (not_pending_after_transition engine today first cid db
                ltac:(lia) Hfirst) as Hout.
  destruct Hsecond as [-> | ->]; simpl.
  - unfold mark_as_completed. by rewrite !decide_False by (done || lia).
  - unfold cancel_claim. by rewrite !decide_False by (done || lia).
Qed.

Lemma second_transition_refused_witness :
  run get_engine 101 (Cancel 1) (run get_engine 100 (Complete 1) sample_db).1 =
    ((run get_engine 100 (Complete 1) sample_db).1, Some NotAValidPendingClaim).
Proof.
  apply (second_transition_refused get_engine 100 101 (Complete 1) (Cancel 1)
           1 sample_db).
  - lia.
  - by left.
  - by right.
Defined.

(** * Completed claims and the listings they reference *)

Lemma completed_claims_joined_lookup db k c l :
  completed_claims_joined db !! k = Some (c, l) ↔
  Claims db !! k = Some c ∧ Claim.Status c = Completed ∧
  Food_Listings db !! Claim.Food_ID c = Some l.
Proof.
  unfold completed_claims_joined. rewrite lookup_omap_Some. split.
  - intros (c0 & Hj & Hc0). destruct (decide _) as [Hs|]; [|done].
    destruct (Food_Listings db !! Claim.Food_ID c0) as [l0|] eqn:El; [|done].
    simpl in Hj. by simplify_eq.
  - intros (Hc & Hs & Hl). exists c. split; [|done].
    rewrite decide_True by done. by rewrite Hl.
Qed.

Lemma completed_claims_joined_pending db cid c :
  Claims db !! cid = Some c → Claim.Status c = Pending →
  completed_claims_joined db !! cid = None.
Proof.
  intros Hc Hs. unfold completed_claims_joined.
  rewrite lookup_omap, Hc. simpl. rewrite decide_False; [done|congruence].
Qed.

(** X22. Completing a Pending claim whose listing is stored adds one to the
    count of "Most Claimed Meal Types" for the meal type of that listing and
    leaves the other counts: the listing is still stored, so the join of the
    report finds the claim on it. *)
Theorem complete_counts_in_q12 engine cid c l db :
  data_model db →
  Claims db !! cid = Some c →
  Claim.Status c = Pending →
  Food_Listings db !! Claim.Food_ID c = Some l →
  let db' := (mark_as_completed engine cid db).1 in
  completed_claims_joined db' !! cid = Some (set_status Completed c, l) ∧
  q12_most_claimed_meal_type db' (Listing.Meal_Type l) =
    S (q12_most_claimed_meal_type db (Listing.Meal_Type l)) ∧
  ∀ meal_type, meal_type ≠ Listing.Meal_Type l →
    q12_most_claimed_meal_type db' meal_type =
    q12_most_claimed_meal_type db meal_type.
Proof.
  intros Hdm Hc Hs Hl. cbv zeta.
  rewrite (complete_writes_status_only engine db cid c Hdm Hc Hs).
  pose proof (completed_claims_joined_pending db cid c Hc Hs) as Hnone.
  assert (Hjoin : completed_claims_joined
            (mkDB (Providers db) (Receivers db) (Food_Listings db)
                  (<[cid := set_status Completed c]> (Claims db))) =
          <[cid := (set_status Completed c, l)]> (completed_claims_joined db)).
  { unfold completed_claims_joined. simpl. apply omap_insert_Some.
    rewrite decide_True by done. simpl. by rewrite Hl. }
  unfold q12_most_claimed_meal_type. rewrite !Hjoin.
  split; [apply lookup_insert_eq|]. split.
  - rewrite map_filter_insert_True by done.
    apply map_size_insert_None, map_lookup_filter_None. by left.
  - intros meal_type Hne.
    rewrite map_filter_insert_False by (simpl; congruence).
    by rewrite delete_id.
Qed.

Lemma complete_counts_in_q12_witness :
  let db' := (mark_as_completed get_engine 1 sample_db).1 in
  completed_claims_joined db' !! 1 =
    Some (set_status Completed (Claim.mk 10 1 Pending 0), bread) ∧
  q12_most_claimed_meal_type db' (Listing.Meal_Type bread) =
    S (q12_most_claimed_meal_type sample_db (Listing.Meal_Type bread)) ∧
  ∀ meal_type, meal_type ≠ Listing.Meal_Type bread →
    q12_most_claimed_meal_type db' meal_type =
    q12_most_claimed_meal_type sample_db meal_type.
Proof.
  apply (complete_counts_in_q12 get_engine 1 (Claim.mk 10 1 Pending 0) bread
           sample_db).
  - apply (bool_decide_unpack _). by vm_compute.
  - by vm_compute.
  - reflexivity.
  - by vm_compute.
Defined.

(** X23. A Food_ID is given out again once the listing with the largest id is
    deleted. Create a listing, delete it on the Delete Listing page, create
    another listing: the second listing is stored under the Food_ID of the
    first, and the Pending claim made with the first, which the deletion
    left behind, now references the second. *)
Theorem deleted_food_id_is_reused
    today1 now1 draw1 f1 today2 now2 draw2 f2 db db1 db3 m3 :
  map_Forall (λ k _, 0 < k) (Food_Listings db) →
  add_listing get_engine today1 now1 draw1 f1 db =
    (db1, Some AddedWithPendingClaim) →
  let cid := next_rowid (Claims db) in
  let fid := next_rowid (Food_Listings db) in
  add_listing get_engine today2 now2 draw2 f2
    (delete_listing get_engine fid db1).1 = (db3, Some m3) →
  m3 = AddedWithPendingClaim ∨ m3 = AddedNoReceivers →
  Food_Listings (delete_listing get_engine fid db1).1 !! fid = None ∧
  (∃ rid, Claims db3 !! cid = Some (Claim.mk fid rid Pending now1)) ∧
  (∃ row, Food_Listings db3 !! fid = Some row ∧
          Listing.Food_Name row = food_name f2 ∧
          Listing.Quantity row = quantity f2 ∧
          Listing.Expiry_Date row = expiry_date f2).
Proof.
  intros Hpos Hrun1 cid fid Hrun3 Hok3.
  (* the first Create *)
  destruct (add_listing_success_inv _ _ _ _ _ _ _ _ Hrun1 ltac:(by left))
    as (name & pid & p & Hsel & Hname & Hfood & Hexp & Hmap & Hprov & Hqty).
  rewrite (add_listing_valid get_engine today1 now1 draw1 f1 db name pid p)
    in Hrun1 by done.
  cbv zeta in Hrun1.
  destruct (random_choice draw1 (receiver_ids db)) as [rid|] eqn:Hch;
    [|done].
  injection Hrun1 as <-. fold fid cid in Hrun3 |- *.
  assert (Hfid : 0 < fid).
  { apply next_rowid_positive. intros k [l Hl]. by apply (Hpos k l). }
  (* its deletion *)
  set (row1 := Listing.mk _ _ _ _ _ _ _ _) in *.
  set (db1 := mkDB _ _ _ _) in *.
  assert (Hdel : (delete_listing get_engine fid db1).1 =
                 mkDB (Providers db) (Receivers db) (Food_Listings db)
                      (Claims db1)).
  { unfold delete_listing. rewrite decide_False by lia.
    unfold db1 at 1. simpl. rewrite lookup_insert_eq.
    unfold execute_mutation, engine_begin, tx_execute,
      delete_food_listing_where, delete_food_listing.
    simpl. rewrite lookup_insert_eq. simpl. f_equal.
    apply delete_insert_id, next_rowid_fresh. }
  rewrite Hdel in *. clear Hdel.
  set (db2 := mkDB _ _ _ (Claims db1)) in *.
  split; [apply next_rowid_fresh|].
  assert (Hc2 : Claims db2 !! cid = Some (Claim.mk fid rid Pending now1))
    by apply lookup_insert_eq.
  (* the second Create *)
  destruct (add_listing_success_inv _ _ _ _ _ _ _ _ Hrun3 Hok3)
    as (name2 & pid2 & p2 & Hsel2 & Hname2 & Hfood2 & Hexp2 & Hmap2 & Hprov2
        & Hqty2).
  rewrite (add_listing_valid get_engine today2 now2 draw2 f2 db2 name2 pid2 p2)
    in Hrun3 by done.
  cbv zeta in Hrun3.
  change (Food_Listings db2) with (Food_Listings db) in Hrun3.
  fold fid in Hrun3.
  assert (Hfresh : next_rowid (Claims db2) ≠ cid).
  { intros Heq. pose proof (next_rowid_fresh (Claims db2)) as Hn.
    rewrite Heq in Hn. congruence. }
  destruct (random_choice draw2 (receiver_ids db2)) as [rid2|];
    injection Hrun3 as <- _; simpl.
  - split.
    + exists rid. by rewrite lookup_insert_ne.
    + eexists. split; [apply lookup_insert_eq|done].
  - split.
    + by exists rid.
    + eexists. split; [apply lookup_insert_eq|done].
Qed.

Lemma deleted_food_id_is_reused_witness :
  let db1 := (add_listing get_engine 100 7 1 soup_form sample_db).1 in
  let cid := next_rowid (Claims sample_db) in
  let fid := next_rowid (Food_Listings sample_db) in
  let db3 := (add_listing get_engine 101 8 0 soup_form
                (delete_listing get_engine fid db1).1).1 in
  Food_Listings (delete_listing get_engine fid db1).1 !! fid = None ∧
  (∃ rid, Claims db3 !! cid = Some (Claim.mk fid rid Pending 7)) ∧
  (∃ row, Food_Listings db3 !! fid = Some row ∧
          Listing.Food_Name row = food_name soup_form ∧
          Listing.Quantity row = quantity soup_form ∧
          Listing.Expiry_Date row = expiry_date soup_form).
Proof.
  intros db1 cid fid db3.
  apply (deleted_food_id_is_reused 100 7 1%nat soup_form
           101 8 0%nat soup_form sample_db db1 db3 AddedWithPendingClaim).
  - apply (bool_decide_unpack _). by vm_compute.
  - by vm_compute.
  - by vm_compute.
  - by left.
Defined.

(** * The text properties on ASCII digits *)

Lemma standardize_phone_number_keeps_digits_witness :
  (is_Some (standardize_phone_number ascii_digit
              (Some (of_string "512-555-0147"))) ↔
     ∃ s, Some (of_string "512-555-0147") = Some s ∧
          length (findall_digits ascii_digit s) = 10%nat) ∧
  ∀ s out, Some (of_string "512-555-0147") = Some s →
    standardize_phone_number ascii_digit (Some (of_string "512-555-0147")) =
      Some out →
    length out = 14%nat ∧
    findall_digits ascii_digit out = findall_digits ascii_digit s.
Proof.
  apply (standardize_phone_number_keeps_digits ascii_digit ascii_digit_spec
           (Some (of_string "512-555-0147"))).
Defined.

Lemma standardize_phone_number_idempotent_witness :
  standardize_phone_number ascii_digit (Some (of_string "(512) 555-0147")) =
    Some (of_string "(512) 555-0147").
Proof.
  apply (standardize_phone_number_idempotent ascii_digit ascii_digit_spec
           (Some (of_string "512.555.0147"))).
  by vm_compute.
Defined.

Lemma generate_random_phone_standard_witness :
  standardize_phone_number ascii_digit
    (Some (generate_random_phone 201 100 1000)) =
    Some (generate_random_phone 201 100 1000).
Proof.
  apply (generate_random_phone_standard ascii_digit ascii_digit_spec
           201 100 1000); lia.
Defined.

Lemma clean_contact_standard_witness :
  let cleaned := clean_contact ascii_digit 999 999 9999
                   (Some (of_string "call 555-0147")) in
  standardize_phone_number ascii_digit (Some cleaned) = Some cleaned ∧
  length cleaned = 14%nat ∧
  length (findall_digits ascii_digit cleaned) = 10%nat.
Proof.
  apply (clean_contact_standard ascii_digit ascii_digit_spec 999 999 9999
           (Some (of_string "call 555-0147"))); lia.
Defined.

Lemma make_clickable_dials_digits_witness :
  make_clickable ascii_digit (Some (of_string "(512) 555-0147")) =
    of_string "[" ++ of_string "(512) 555-0147" ++ of_string "](tel:" ++
    findall_digits ascii_digit (of_string "512-555-0147") ++ of_string ")".
Proof.
  apply (make_clickable_dials_digits ascii_digit ascii_digit_spec
           (of_string "512-555-0147") (of_string "(512) 555-0147")).
  by vm_compute.
Defined.

Lemma extract_pincode_last_five_witness :
  extract_pincode ascii_digit (Some (of_string "Suite 123456")) =
    Some (of_string "23456") ↔
  length (of_string "23456") = 5%nat ∧
  Forall (λ c, ascii_digit c = true) (of_string "23456") ∧
  ∃ pre, of_string "Suite 123456" = pre ++ of_string "23456" ∨
         of_string "Suite 123456" = pre ++ of_string "23456" ++ [10%N].
Proof.
  apply (extract_pincode_last_five ascii_digit ascii_digit_spec
           (of_string "Suite 123456") (of_string "23456")).
Defined.
